(** * task-glitch: the [useTasks] hook (src/hooks/useTasks.ts)

    A shallow embedding of the task store kept by the [useTasks] React hook:
    ingestion ([normalizeTasks], [loadTasks]), the aggregate [metrics], the
    mutation callbacks ([addTask], [updateTask], [deleteTask]) and the
    single-slot delete/undo cell ([undoDelete], [clearUndo]).

    Conventions of the embedding.
    - A JavaScript [number] is an IEEE-754 binary64 value: Rocq's primitive
      [float], with the comparisons and arithmetic of the kernel.
    - The hook's [useState] cells are the fields of the record [State]; each
      callback is a function [State -> State].  A callback is applied to the
      state of the latest render, i.e. every call completes (and the hook
      re-renders) before the next one is issued.
    - The clock ([Date.now()], [new Date()]) and [crypto.randomUUID()] are read
      from explicit arguments [now] and [uuid].
    - A date-time string is represented by the instant it denotes, in
      milliseconds since the epoch ([Timestamp]); [toISOString] of an
      invalid [Date] raises, as in the source. *)

From Stdlib Require Import Floats ZArith List String Bool Lia DecimalString Uint63.
Import ListNotations.

Set Implicit Arguments.

#[local] Open Scope string_scope.
#[local] Open Scope list_scope.

(* ================================================================= *)
(** ** JavaScript values used by the hook *)

Module JS.

(** A loosely typed scalar as found in a record of [tasks.json]. *)
Inductive Scalar : Type :=
| Undefined
| Null
| Boolean (b : bool)
| Num (x : float)
| Str (s : string).

(** A thrown value, seen through [e?.message]: [None] when the value has no
    (or a nullish) [message]. *)
Record Thrown : Type := mkThrown { message : option string }.

Definition Error (msg : string) : Thrown := mkThrown (Some msg).

(** Messages of the engine's own errors (V8's wording). *)
Definition TypeError_null : Thrown :=
  Error "Cannot read properties of null (reading 'createdAt')".
Definition RangeError_time : Thrown := Error "Invalid time value".

(** [Number.isFinite]. *)
Definition isFinite (x : float) : bool := PrimFloat.is_finite x.

(** A [Date] object: its time value, [None] for an Invalid Date. *)
Definition Date : Type := option Z.

Definition maxTime : Z := 8640000000000000.

(** [new Date(ms)] for an integral number of milliseconds (TimeClip). *)
Definition newDate (ms : Z) : Date :=
  if (Z.abs ms <=? maxTime)%Z then Some ms else None.

(** [tasks.length] as a number. *)
Definition ofNat (n : nat) : float :=
  PrimFloat.of_uint63 (Uint63.of_Z (Z.of_nat n)).

End JS.

(** Calls to collaborators outside the hook, in the order they are made. *)
Inductive Call : Type :=
| CallFetch (url : string)
| CallGenerateSalesTasks (n : nat).

(** Computations that may throw and that record their outside calls. *)
Definition M (A : Type) : Type := (list Call * (JS.Thrown + A))%type.

Definition ret {A} (a : A) : M A := ([], inr a).

Definition throw {A} (e : JS.Thrown) : M A := ([], inl e).

Definition bind {A B} (m : M A) (f : A -> M B) : M B :=
  match m with
  | (c1, inl e) => (c1, inl e)
  | (c1, inr a) => let (c2, r) := f a in (c1 ++ c2, r)
  end.

Definition call {A} (c : Call) (r : JS.Thrown + A) : M A := ([c], r).

Notation "x <- m ;; k" := (bind m (fun x => k))
  (at level 61, m at next level, right associativity).

(** [Array.prototype.map] with the index, for a callback that may throw. *)
Fixpoint mapiM {A B} (f : A -> nat -> M B) (idx : nat) (l : list A) : M (list B) :=
  match l with
  | [] => ret []
  | a :: l' =>
      b <- f a idx ;;
      bs <- mapiM f (S idx) l' ;;
      ret (b :: bs)
  end.

(* ================================================================= *)
(** ** Data model *)

(** Modelled from the spec: the [Priority] union of [@/types] (section 3:
    one of Low, Medium, High). *)
Inductive Priority : Type := Low | Medium | High.

(** Modelled from the spec: the [Status] union of [@/types] (section 3: one
    of Todo, InProgress, Done). *)
Inductive Status : Type := Todo | InProgress | Done.

Definition Status_eqb (a b : Status) : bool :=
  match a, b with
  | Todo, Todo | InProgress, InProgress | Done, Done => true
  | _, _ => false
  end.

(** ISO date-time strings, by the instant they denote (ms since the epoch). *)
Definition Timestamp : Type := Z.

Bind Scope Z_scope with Timestamp.

(** Modelled from the spec: the [Task] type of [@/types] (section 3 of the
    specification and the object literal built by [normalizeTasks]). *)
Record Task : Type := mkTask {
  id : string;
  title : string;
  revenue : float;
  timeTaken : float;
  priority : Priority;
  status : Status;
  notes : string;
  createdAt : Timestamp;
  completedAt : option Timestamp
}.

(** The argument of [addTask]: [Omit<Task, 'id'> & { id?: string }]. *)
Record TaskInput : Type := mkTaskInput {
  in_id : option string;
  in_title : string;
  in_revenue : float;
  in_timeTaken : float;
  in_priority : Priority;
  in_status : Status;
  in_notes : string;
  in_createdAt : Timestamp;
  in_completedAt : option Timestamp
}.

(** [Partial<Task>]: [None] for a field the patch does not carry.  The
    optional field [completedAt] may be carried with the value [undefined]. *)
Record Patch : Type := mkPatch {
  p_id : option string;
  p_title : option string;
  p_revenue : option float;
  p_timeTaken : option float;
  p_priority : option Priority;
  p_status : option Status;
  p_notes : option string;
  p_createdAt : option Timestamp;
  p_completedAt : option (option Timestamp)
}.

(** The [createdAt] of a raw record, through [t.createdAt ? new Date(t.createdAt) : ...]:
    falsy, or a truthy value that [new Date] turns into the given [Date]. *)
Inductive RawDate : Type :=
| DateAbsent
| DateGiven (d : JS.Date).

(** A record of the external source.  The fields the hook passes on as they are
    have the type asserted by its [as Task]; the numeric fields, which go
    through [Number(...)], are loosely typed. *)
Record RawTask : Type := mkRawTask {
  raw_id : option string;
  raw_title : option string;
  raw_revenue : JS.Scalar;
  raw_timeTaken : JS.Scalar;
  raw_priority : option Priority;
  raw_status : option Status;
  raw_notes : option string;
  raw_createdAt : RawDate;
  raw_completedAt : option Timestamp
}.

(** An element of the parsed array: [null], or a record (a primitive element
    reads as the record with every field absent). *)
Inductive RawElement : Type :=
| ElemNull
| ElemRecord (t : RawTask).

(** The value [res.json()] resolves to. *)
Inductive RawData : Type :=
| NotAnArray
| ArrayOf (items : list RawElement).

Record Metrics : Type := mkMetrics {
  totalRevenue : float;
  totalTimeTaken : float;
  timeEfficiencyPct : float;
  revenuePerHour : float;
  averageROI : float;
  performanceGrade : string
}.

(** The hook's state cells. *)
Record State : Type := mkState {
  tasks : list Task;
  loading : bool;
  error : option string;
  lastDeleted : option Task;
  undoOpen : bool
}.

(** The state of the first render. *)
Definition initialState : State := mkState [] true None None false.

Definition setTasks (f : list Task -> list Task) (s : State) : State :=
  mkState (f (tasks s)) (loading s) (error s) (lastDeleted s) (undoOpen s).

Definition setLoading (b : bool) (s : State) : State :=
  mkState (tasks s) b (error s) (lastDeleted s) (undoOpen s).

Definition setError (e : option string) (s : State) : State :=
  mkState (tasks s) (loading s) e (lastDeleted s) (undoOpen s).

Definition setLastDeleted (t : option Task) (s : State) : State :=
  mkState (tasks s) (loading s) (error s) t (undoOpen s).

Definition setUndoOpen (b : bool) (s : State) : State :=
  mkState (tasks s) (loading s) (error s) (lastDeleted s) b.

(* ================================================================= *)
(** ** Collaborators of the hook *)

(** The host's conversion of a string to a number ([Number("...")]). *)
Class Host : Type := {
  StringToNumber : string -> float
}.

(** [@/utils/seed]: the fallback generator. *)
Class Seed : Type := {
  generateSalesTasks : nat -> list Task
}.

(** [@/utils/logic]: the helpers [metrics] calls. *)
Class Logic : Type := {
  computeTotalRevenue : list Task -> float;
  computeTimeEfficiency : list Task -> float;
  computeRevenuePerHour : list Task -> float;
  computeAverageROI : list Task -> float;
  computePerformanceGrade : float -> string
}.

(** What [await fetch('/tasks.json')] and [await res.json()] settle to. *)
Record Response : Type := mkResponse {
  ok : bool;
  http_status : nat;
  json : JS.Thrown + RawData
}.

Definition FetchResult : Type := (JS.Thrown + Response)%type.

(* ================================================================= *)
(** ** Ingestion: [normalizeTasks] and [loadTasks] *)

(** [Number(v)]. *)
Definition Number `{Host} (v : JS.Scalar) : float :=
  match v with
  | JS.Undefined => nan
  | JS.Null => 0
  | JS.Boolean true => 1
  | JS.Boolean false => 0
  | JS.Num x => x
  | JS.Str s => StringToNumber s
  end%float.

(** [d.toISOString()]: a RangeError on an Invalid Date. *)
Definition toISOString (d : JS.Date) : M Timestamp :=
  match d with
  | Some ms => ret ms
  | None => throw JS.RangeError_time
  end.

(** [new Date(d.getTime() + ms)]: [getTime] of an Invalid Date is NaN. *)
Definition plusMs (d : JS.Date) (ms : Z) : JS.Date :=
  match d with
  | Some t => JS.newDate (t + ms)
  | None => None
  end.

(** The callback of [normalizeTasks]'s [map], on element [e] at index [idx];
    [uuid idx] is what [crypto.randomUUID()] returns for that element. *)
Definition normalizeTask `{Host} (now : Z) (uuid : nat -> string)
    (e : RawElement) (idx : nat) : M Task :=
  match e with
  | ElemNull => throw JS.TypeError_null
  | ElemRecord t =>
      let created :=
        match raw_createdAt t with
        | DateGiven d => d
        | DateAbsent => JS.newDate (now - (Z.of_nat idx + 1) * 24 * 3600 * 1000)
        end in
      completed <-
        match raw_completedAt t with
        | Some c => ret (Some c)
        | None =>
            match raw_status t with
            | Some Done =>
                iso <- toISOString (plusMs created (24 * 3600 * 1000)) ;;
                ret (Some iso)
            | _ => ret None
            end
        end ;;
      createdIso <- toISOString created ;;
      ret {| id := match raw_id t with Some i => i | None => uuid idx end;
             title := match raw_title t with Some x => x | None => "Untitled Task" end;
             revenue := if JS.isFinite (Number (raw_revenue t))
                        then Number (raw_revenue t) else 0%float;
             timeTaken := if (0 <? Number (raw_timeTaken t))%float
                          then Number (raw_timeTaken t) else 1%float;
             priority := match raw_priority t with Some x => x | None => Medium end;
             status := match raw_status t with Some x => x | None => Todo end;
             notes := match raw_notes t with Some x => x | None => "" end;
             createdAt := createdIso;
             completedAt := completed |}
  end.

Definition normalizeTasks `{Host} (now : Z) (uuid : nat -> string)
    (input : RawData) : M (list Task) :=
  mapiM (normalizeTask now uuid)
        0
        (match input with ArrayOf items => items | NotAnArray => [] end).

Definition fetch (world : FetchResult) (url : string) : M Response :=
  call (CallFetch url) world.

(** [await res.json()]. *)
Definition resJson (res : Response) : M RawData := ([], json res).

Definition callGenerateSalesTasks `{Seed} (n : nat) : M (list Task) :=
  call (CallGenerateSalesTasks n) (inr (generateSalesTasks n)).

Definition showNat (n : nat) : string :=
  NilEmpty.string_of_uint (Nat.to_uint n).

(** The [try] block of [loadTasks], up to the value handed to [setTasks]. *)
Definition loadData `{Host} `{Seed} (now : Z) (uuid : nat -> string)
    (world : FetchResult) : M (list Task) :=
  res <- fetch world "/tasks.json" ;;
  _ <- (if negb (ok res)
        then throw (JS.Error ("Failed to load tasks.json (" ++ showNat (http_status res) ++ ")")%string)
        else ret tt) ;;
  data <- resJson res ;;
  normalized <- normalizeTasks now uuid data ;;
  finalData <- (if (0 <? List.length normalized)%nat
                then ret normalized
                else callGenerateSalesTasks 50) ;;
  ret finalData.

(** [loadTasks], run to completion on the state [s]; [isMounted] is the flag
    of the effect when the load settles.  Returns the next state and the
    outside calls that were made. *)
Definition loadTasks `{Host} `{Seed} (now : Z) (uuid : nat -> string)
    (world : FetchResult) (isMounted : bool) (s : State) : State * list Call :=
  let (calls, outcome) := loadData now uuid world in
  let s1 :=
    match outcome with
    | inr finalData =>
        if isMounted then setTasks (fun _ => finalData) s else s
    | inl e =>
        if isMounted
        then setError (Some (match JS.message e with
                             | Some m => m
                             | None => "Failed to load tasks"
                             end)) s
        else s
    end in
  let s2 := if isMounted then setLoading false s1 else s1 in
  (s2, calls).

(* ================================================================= *)
(** ** Aggregate metrics *)

Definition INITIAL_METRICS : Metrics :=
  {| totalRevenue := 0;
     totalTimeTaken := 0;
     timeEfficiencyPct := 0;
     revenuePerHour := 0;
     averageROI := 0;
     performanceGrade := "Needs Improvement" |}.

(** The [metrics] memo, as a function of the collection. *)
Definition metrics `{Logic} (ts : list Task) : Metrics :=
  if (List.length ts =? 0)%nat then INITIAL_METRICS
  else
    let totalRevenue := computeTotalRevenue ts in
    let totalTimeTaken := fold_left (fun s t => (s + timeTaken t)%float) ts 0%float in
    let timeEfficiencyPct := computeTimeEfficiency ts in
    let revenuePerHour := computeRevenuePerHour ts in
    let averageROI := computeAverageROI ts in
    let performanceGrade := computePerformanceGrade averageROI in
    {| totalRevenue := totalRevenue;
       totalTimeTaken := totalTimeTaken;
       timeEfficiencyPct := timeEfficiencyPct;
       revenuePerHour := revenuePerHour;
       averageROI := averageROI;
       performanceGrade := performanceGrade |}.

(** Per-task return on effort, [revenue / timeTaken] (glossary, "ROI"). *)
Definition roi (t : Task) : float := (revenue t / timeTaken t)%float.

(** Left-to-right sum of a numeric field, as [reduce((s, t) => s + f(t), 0)]. *)
Definition sumOver (f : Task -> float) (ts : list Task) : float :=
  fold_left (fun s t => (s + f t)%float) ts 0%float.

(** Modelled from the spec: [computeTotalRevenue] of [@/utils/logic], absent
    from the sources; section 4.2: the sum of [revenue] over all tasks. *)
Definition spec_computeTotalRevenue (ts : list Task) : float :=
  sumOver revenue ts.

(** Modelled from the spec: [computeRevenuePerHour] of [@/utils/logic], absent
    from the sources; section 4.2: [totalRevenue / totalTimeTaken]. *)
Definition spec_computeRevenuePerHour (ts : list Task) : float :=
  (spec_computeTotalRevenue ts / sumOver timeTaken ts)%float.

(** Modelled from the spec: [computeAverageROI] of [@/utils/logic], absent
    from the sources; section 4.2: the arithmetic mean of the per-task ROI. *)
Definition spec_computeAverageROI (ts : list Task) : float :=
  (sumOver roi ts / JS.ofNat (List.length ts))%float.

(** Modelled from the spec: the helpers of [@/utils/logic] as section 4.2
    describes them.  The time-efficiency percentage and the grade table are
    left open by the specification and stay parameters. *)
Definition SpecLogic (efficiency : list Task -> float)
    (grade : float -> string) : Logic :=
  {| computeTotalRevenue := spec_computeTotalRevenue;
     computeTimeEfficiency := efficiency;
     computeRevenuePerHour := spec_computeRevenuePerHour;
     computeAverageROI := spec_computeAverageROI;
     computePerformanceGrade := grade |}.

(* ================================================================= *)
(** ** Mutation callbacks *)

(** [addTask(task)] at time [now]; [uuid] is what [crypto.randomUUID()]
    returns if it is called. *)
Definition addTask (now : Timestamp) (uuid : string) (task : TaskInput)
    (s : State) : State :=
  setTasks (fun prev =>
    let id' := match in_id task with Some i => i | None => uuid end in
    let timeTaken' :=
      if (in_timeTaken task <=? 0)%float then 1%float else in_timeTaken task in
    let createdAt' := now in
    let completedAt' :=
      if Status_eqb (in_status task) Done then Some createdAt' else None in
    prev ++ [ {| id := id';
                 title := in_title task;
                 revenue := in_revenue task;
                 timeTaken := timeTaken';
                 priority := in_priority task;
                 status := in_status task;
                 notes := in_notes task;
                 createdAt := createdAt';
                 completedAt := completedAt' |} ]) s.

(** [{ ...t, ...patch }]. *)
Definition merge (t : Task) (patch : Patch) : Task :=
  {| id := match p_id patch with Some x => x | None => id t end;
     title := match p_title patch with Some x => x | None => title t end;
     revenue := match p_revenue patch with Some x => x | None => revenue t end;
     timeTaken := match p_timeTaken patch with Some x => x | None => timeTaken t end;
     priority := match p_priority patch with Some x => x | None => priority t end;
     status := match p_status patch with Some x => x | None => status t end;
     notes := match p_notes patch with Some x => x | None => notes t end;
     createdAt := match p_createdAt patch with Some x => x | None => createdAt t end;
     completedAt := match p_completedAt patch with Some x => x | None => completedAt t end |}.

Definition set_completedAt (c : option Timestamp) (t : Task) : Task :=
  mkTask (id t) (title t) (revenue t) (timeTaken t) (priority t) (status t)
         (notes t) (createdAt t) c.

Definition set_timeTaken (x : float) (t : Task) : Task :=
  mkTask (id t) (title t) (revenue t) x (priority t) (status t)
         (notes t) (createdAt t) (completedAt t).

(** The callback of [updateTask]'s [map]. *)
Definition updateOne (now : Timestamp) (tid : string) (patch : Patch)
    (t : Task) : Task :=
  if negb (String.eqb (id t) tid) then t
  else
    let updated := merge t patch in
    let updated :=
      if negb (Status_eqb (status t) Done) && Status_eqb (status updated) Done
      then set_completedAt (Some now) updated
      else updated in
    let updated :=
      if (timeTaken updated <=? 0)%float then set_timeTaken 1%float updated
      else updated in
    updated.

Definition updateTask (now : Timestamp) (tid : string) (patch : Patch)
    (s : State) : State :=
  setTasks (fun prev => map (updateOne now tid patch) prev) s.

(* ================================================================= *)
(** ** The delete/undo cell *)

Definition deleteTask (tid : string) (s : State) : State :=
  let prev := tasks s in
  let target := find (fun t => String.eqb (id t) tid) prev in
  setTasks (fun _ => filter (fun t => negb (String.eqb (id t) tid)) prev)
           (setUndoOpen true (setLastDeleted target s)).

Definition undoDelete (s : State) : State :=
  match lastDeleted s with
  | None => s
  | Some held =>
      if negb (undoOpen s) then s
      else setUndoOpen false
             (setLastDeleted None
                (setTasks (fun prev => prev ++ [held]) s))
  end.

Definition clearUndo (s : State) : State :=
  setUndoOpen false (setLastDeleted None s).

(** The undo machine's states (section 4.4), read off the two cells. *)
Inductive UndoState : Type := Idle | PendingUndo.

Definition undoState (s : State) : UndoState :=
  if undoOpen s then PendingUndo else Idle.

(** A sequence of [updateTask] calls, each with its time, id and patch. *)
Definition runUpdates (calls : list (Timestamp * string * Patch)) (s : State) : State :=
  fold_left (fun st c => let '(now, tid, patch) := c in updateTask now tid patch st)
            calls s.

(* ================================================================= *)
(** ** Properties of the numeric fields *)

(** [timeTaken > 0]. *)
Definition positive (x : float) : Prop := (0 <? x)%float = true.

(** [Number.isFinite(x)] holds. *)
Definition finite (x : float) : Prop := JS.isFinite x = true.

(** [revenue] finite and [>= 0]. *)
Definition nonneg_finite (x : float) : Prop :=
  finite x /\ (0 <=? x)%float = true.

(** [timeTaken > 0] together with a property [R] of [revenue]. *)
Definition task_inv (R : float -> Prop) (t : Task) : Prop :=
  positive (timeTaken t) /\ R (revenue t).

(** The invariant of section 3 on one task. *)
Definition valid_task : Task -> Prop := task_inv nonneg_finite.

(** What [normalizeTasks] establishes on one task. *)
Definition normalized_task : Task -> Prop := task_inv finite.

(** A patch whose numeric fields, where carried, are a [timeTaken] other than
    NaN and a [revenue] with the property [R]. *)
Definition numeric_patch (R : float -> Prop) (patch : Patch) : Prop :=
  match p_timeTaken patch with Some x => PrimFloat.is_nan x = false | None => True end /\
  match p_revenue patch with Some x => R x | None => True end.

(** A host whose string conversion is not used by the examples below. *)
Definition exampleHost : Host := {| StringToNumber := fun _ => nan |}.

Definition exampleTask (i : string) (rev time : float) (st : Status)
    (created : Timestamp) (completed : option Timestamp) : Task :=
  mkTask i "task" rev time Medium st "" created completed.

Definition exampleInput (i : option string) (rev time : float) (st : Status) : TaskInput :=
  mkTaskInput i "task" rev time Medium st "" 0%Z None.

Definition exampleRaw (rev time : JS.Scalar) : RawTask :=
  mkRawTask (Some "r1") None rev time None None None DateAbsent None.

(** A generator that returns [n] copies of one task. *)
Definition exampleSeed : Seed :=
  {| generateSalesTasks := fun n => repeat (exampleTask "seed" 100 2 Todo 0 None) n |}.

(* ================================================================= *)
(** ** Outcomes of the load *)

(** The load fails: the [try] block of [loadTasks] throws.  Either [fetch]
    rejects, or the response is not [ok], or its body does not parse, or
    [normalizeTasks] throws on the parsed data. *)
Definition load_fails `{Host} (now : Z) (uuid : nat -> string)
    (world : FetchResult) : Prop :=
  match world with
  | inl _ => True
  | inr res =>
      ok res = false \/
      match json res with
      | inl _ => True
      | inr data => exists c e, normalizeTasks now uuid data = (c, inl e)
      end
  end.

(** The load succeeds with an empty task sequence. *)
Definition empty_success (world : FetchResult) : Prop :=
  exists st, world = inr (mkResponse true st (inr (ArrayOf []))).

(* ================================================================= *)
(** ** Sequences of calls, and what ingestion can read *)

(** One call of a mutation or undo callback. *)
Inductive Action : Type :=
| AddTask (now : Timestamp) (uuid : string) (task : TaskInput)
| UpdateTask (now : Timestamp) (tid : string) (patch : Patch)
| DeleteTask (tid : string)
| UndoDelete
| ClearUndo.

Definition perform (a : Action) (s : State) : State :=
  match a with
  | AddTask now uuid task => addTask now uuid task s
  | UpdateTask now tid patch => updateTask now tid patch s
  | DeleteTask tid => deleteTask tid s
  | UndoDelete => undoDelete s
  | ClearUndo => clearUndo s
  end.

(** The calls of [l], one after the other, each on the state the previous
    one left. *)
Definition performAll (l : list Action) (s : State) : State :=
  fold_left (fun st a => perform a st) l s.

(** The [created] date [normalizeTasks] computes for the record [r] at index
    [idx]. *)
Definition createdOf (now : Z) (idx : nat) (r : RawTask) : JS.Date :=
  match raw_createdAt r with
  | DateGiven d => d
  | DateAbsent => JS.newDate (now - (Z.of_nat idx + 1) * 24 * 3600 * 1000)
  end.


(** The actions of the delete/undo cell. *)
Definition undo_only (a : Action) : Prop :=
  match a with
  | DeleteTask _ | UndoDelete | ClearUndo => True
  | AddTask _ _ _ | UpdateTask _ _ _ => False
  end.

(** The list a computation returned ([[]] if it threw). *)
Definition returned {A} (m : M (list A)) : list A :=
  match snd m with inr l => l | inl _ => [] end.

(** [timeTaken] is not [<= 0] (it is positive, or NaN). *)
Definition clamped (t : Task) : Prop := (timeTaken t <=? 0)%float = false.

(** [P] holds of every task of the collection and of the held task. *)
Definition store_all (P : Task -> Prop) (s : State) : Prop :=
  Forall P (tasks s) /\
  match lastDeleted s with Some held => P held | None => True end.

(* ================================================================= *)
(** ** Generic lemmas *)

Lemma bind_inr {A B} (m : M A) (f : A -> M B) (c : list Call) (b : B) :
  bind m f = (c, inr b) ->
  exists c1 a c2, m = (c1, inr a) /\ f a = (c2, inr b) /\ c = c1 ++ c2.
Proof.
  unfold bind. destruct m as [c1 [e | a]]; [discriminate |].
  destruct (f a) as [c2 r] eqn:Ef. intros E. inversion E; subst.
  exists c1, a, c2. auto.
Qed.

Lemma mapiM_Forall {A B} (f : A -> nat -> M B) (P : B -> Prop) :
  (forall a i c b, f a i = (c, inr b) -> P b) ->
  forall l i c bs, mapiM f i l = (c, inr bs) -> Forall P bs.
Proof.
  intros Hf l. induction l as [| a l IH]; intros i c bs E; simpl in E.
  - inversion E. constructor.
  - apply bind_inr in E. destruct E as (c1 & b & c2 & Eb & E & _).
    apply bind_inr in E. destruct E as (c3 & bs' & c4 & Ebs & E & _).
    inversion E; subst. constructor; eauto.
Qed.

(** A number that is neither NaN nor [<= 0] is [> 0]. *)
Lemma not_leb_zero_positive (x : float) :
  PrimFloat.is_nan x = false -> (x <=? 0)%float = false -> positive x.
Proof.
  unfold positive, PrimFloat.is_nan.
  rewrite FloatAxioms.eqb_spec, FloatAxioms.leb_spec, FloatAxioms.ltb_spec.
  change (Prim2SF 0) with (S754_zero false).
  destruct (Prim2SF x) as [ [] | [] | | [] m e]; cbn; intros; congruence.
Qed.

Lemma leb_zero_not_positive (x : float) :
  (x <=? 0)%float = true -> (0 <? x)%float = false.
Proof.
  rewrite FloatAxioms.leb_spec, FloatAxioms.ltb_spec.
  change (Prim2SF 0) with (S754_zero false).
  destruct (Prim2SF x) as [ [] | [] | | [] m e]; cbn; intros; congruence.
Qed.

Lemma normalizeTask_normalized `{Host} now uuid e idx c t :
  normalizeTask now uuid e idx = (c, inr t) -> normalized_task t.
Proof.
  destruct e as [| r]; simpl; [discriminate |].
  intros E. apply bind_inr in E. destruct E as (c1 & completed & c2 & _ & E & _).
  apply bind_inr in E. destruct E as (c3 & iso & c4 & _ & E & _).
  inversion E; subst; clear E. split; simpl.
  - unfold positive. destruct (0 <? Number (raw_timeTaken r))%float eqn:Et;
      [exact Et | reflexivity].
  - destruct (JS.isFinite (Number (raw_revenue r))) eqn:Er;
      [exact Er | reflexivity].
Qed.

Lemma normalizeTask_coerces `{Host} now uuid r idx c t :
  normalizeTask now uuid (ElemRecord r) idx = (c, inr t) ->
  (raw_timeTaken r = JS.Undefined \/ (Number (raw_timeTaken r) <=? 0)%float = true ->
   timeTaken t = 1%float) /\
  (raw_revenue r = JS.Undefined \/ JS.isFinite (Number (raw_revenue r)) = false ->
   revenue t = 0%float) /\
  (JS.isFinite (Number (raw_revenue r)) = true -> revenue t = Number (raw_revenue r)) /\
  ((0 <? Number (raw_timeTaken r))%float = true -> timeTaken t = Number (raw_timeTaken r)).
Proof.
  simpl. intros E.
  apply bind_inr in E. destruct E as (c1 & completed & c2 & _ & E & _).
  apply bind_inr in E. destruct E as (c3 & iso & c4 & _ & E & _).
  inversion E; subst; clear E. simpl. repeat split.
  - intros [Hu | Hle].
    + rewrite Hu. reflexivity.
    + rewrite (@leb_zero_not_positive _ Hle). reflexivity.
  - intros [Hu | Hf].
    + rewrite Hu. reflexivity.
    + rewrite Hf. reflexivity.
  - intros Hf. rewrite Hf. reflexivity.
  - intros Hp. rewrite Hp. reflexivity.
Qed.

Lemma updateOne_inv (R : float -> Prop) now tid patch t :
  numeric_patch R patch -> task_inv R t -> task_inv R (updateOne now tid patch t).
Proof.
  intros [Ht Hr] [Vt Vr]. unfold updateOne.
  destruct (negb (id t =? tid)%string); [split; assumption |].
  set (u1 := merge t patch).
  set (u2 := if negb (Status_eqb (status t) Done) && Status_eqb (status u1) Done
             then set_completedAt (Some now) u1 else u1).
  assert (E2t : timeTaken u2 = timeTaken u1) by (unfold u2; destruct (_ && _); reflexivity).
  assert (E2r : revenue u2 = revenue u1) by (unfold u2; destruct (_ && _); reflexivity).
  assert (R1 : R (revenue u1)).
  { unfold u1; simpl. destruct (p_revenue patch); assumption. }
  destruct (timeTaken u2 <=? 0)%float eqn:El; split; simpl.
  - reflexivity.
  - rewrite E2r. exact R1.
  - rewrite E2t in *. unfold u1 in *; simpl in *.
    destruct (p_timeTaken patch) as [x |].
    + apply not_leb_zero_positive; assumption.
    + exact Vt.
  - rewrite E2r. exact R1.
Qed.

Lemma addTask_tasks now uuid task s :
  tasks (addTask now uuid task s) =
  tasks s ++
  [ {| id := match in_id task with Some i => i | None => uuid end;
       title := in_title task;
       revenue := in_revenue task;
       timeTaken := if (in_timeTaken task <=? 0)%float then 1%float else in_timeTaken task;
       priority := in_priority task;
       status := in_status task;
       notes := in_notes task;
       createdAt := now;
       completedAt := if Status_eqb (in_status task) Done then Some now else None |} ].
Proof. reflexivity. Qed.

(* ================================================================= *)
(** ** C1: the numeric invariant *)

(** C1 (as amended).  After [normalizeTasks] every task has [timeTaken > 0]
    and a finite [revenue] (a non-finite or missing revenue becomes 0; the
    sign of a finite revenue is kept).  [addTask] and [updateTask] store
    [revenue] as supplied and replace a [timeTaken <= 0] by 1: for every
    property [R] of revenue they preserve "[timeTaken > 0] and [R revenue]" on
    the whole collection whenever the supplied (patched) [timeTaken] is not
    NaN and the supplied (patched) revenue satisfies [R]; with [R] =
    "finite and [>= 0]" this is the invariant of the claim. *)
Theorem numeric_fields_invariant `{Host} :
  (forall now uuid input c result,
      normalizeTasks now uuid input = (c, inr result) ->
      Forall normalized_task result) /\
  (forall now uuid r idx c t,
      normalizeTask now uuid (ElemRecord r) idx = (c, inr t) ->
      (raw_timeTaken r = JS.Undefined \/
       (Number (raw_timeTaken r) <=? 0)%float = true -> timeTaken t = 1%float) /\
      (raw_revenue r = JS.Undefined \/
       JS.isFinite (Number (raw_revenue r)) = false -> revenue t = 0%float) /\
      (JS.isFinite (Number (raw_revenue r)) = true ->
       revenue t = Number (raw_revenue r))) /\
  (forall (R : float -> Prop) now uuid task s,
      PrimFloat.is_nan (in_timeTaken task) = false ->
      R (in_revenue task) ->
      Forall (task_inv R) (tasks s) ->
      Forall (task_inv R) (tasks (addTask now uuid task s))) /\
  (forall (R : float -> Prop) now tid patch s,
      numeric_patch R patch ->
      Forall (task_inv R) (tasks s) ->
      Forall (task_inv R) (tasks (updateTask now tid patch s))).
Proof.
  split; [| split; [| split]].
  - intros now uuid input c result E. unfold normalizeTasks in E.
    eapply mapiM_Forall; [| exact E].
    intros a i c' b Eb. eapply normalizeTask_normalized; exact Eb.
  - intros now uuid r idx c t E.
    destruct (@normalizeTask_coerces _ _ _ _ _ _ _ E) as (Ht & Hr & Hk & _). auto.
  - intros R now uuid task s Hn Hr Hs. rewrite addTask_tasks.
    apply Forall_app. split; [exact Hs |].
    constructor; [| constructor]. split; simpl; [| exact Hr].
    destruct (in_timeTaken task <=? 0)%float eqn:El; [reflexivity |].
    apply not_leb_zero_positive; assumption.
  - intros R now tid patch s Hp Hs. unfold updateTask, setTasks; simpl.
    rewrite Forall_forall in *. intros t' Hin. apply in_map_iff in Hin.
    destruct Hin as (t & <- & Hin). apply updateOne_inv; auto.
Qed.

(** Use of C1 on a concrete collection: adding a task with [timeTaken = 0]
    and revenue 10 to a valid one-task collection keeps the invariant. *)
Lemma numeric_fields_invariant_witness :
  Forall valid_task
    (tasks (addTask 5 "u" (exampleInput None 10 0 Todo)
              (mkState [exampleTask "a" 100 2 Todo 0 None] false None None false))).
Proof.
  refine (proj1 (proj2 (proj2 (@numeric_fields_invariant exampleHost)))
            nonneg_finite 5%Z "u" (exampleInput None 10 0 Todo)
            (mkState [exampleTask "a" 100 2 Todo 0 None] false None None false)
            _ _ _).
  - reflexivity.
  - split; reflexivity.
  - constructor; [| constructor]. split; [| split]; reflexivity.
Defined.

(** C1 as stated fails: a negative revenue survives [normalizeTasks]; a NaN
    revenue and a NaN [timeTaken] survive [addTask]; a negative revenue
    survives [updateTask]. *)
Lemma numeric_fields_counterexample :
  (exists t,
      snd (@normalizeTasks exampleHost 0 (fun _ => "u")
             (ArrayOf [ElemRecord (exampleRaw (JS.Num (-5)) (JS.Num 2))])) = inr [t] /\
      (0 <=? revenue t)%float = false) /\
  (exists t,
      In t (tasks (addTask 0 "u" (exampleInput None nan 1 Todo) initialState)) /\
      JS.isFinite (revenue t) = false) /\
  (exists t,
      In t (tasks (addTask 0 "u" (exampleInput None 10 nan Todo) initialState)) /\
      (0 <? timeTaken t)%float = false) /\
  (exists t,
      In t (tasks (updateTask 0 "a"
                     (mkPatch None None (Some (-5)%float) None None None None None None)
                     (mkState [exampleTask "a" 100 2 Todo 0 None] false None None false))) /\
      (0 <=? revenue t)%float = false).
Proof.
  repeat split.
  - eexists. split; [vm_compute; reflexivity | reflexivity].
  - eexists. split; [left; reflexivity | reflexivity].
  - eexists. split; [left; reflexivity | reflexivity].
  - eexists. split; [left; reflexivity | reflexivity].
Qed.

(* ================================================================= *)
(** ** [updateTask]: completion stamp, ids, frame *)

Lemma updateTask_tasks now tid patch s :
  tasks (updateTask now tid patch s) = map (updateOne now tid patch) (tasks s).
Proof. reflexivity. Qed.

Lemma updateTask_nth now tid patch s i :
  nth_error (tasks (updateTask now tid patch s)) i =
  option_map (updateOne now tid patch) (nth_error (tasks s) i).
Proof. rewrite updateTask_tasks. apply nth_error_map. Qed.

Lemma Status_eqb_eq a b : Status_eqb a b = true <-> a = b.
Proof. destruct a, b; simpl; split; congruence. Qed.

Lemma Status_eqb_neq a b : Status_eqb a b = false <-> a <> b.
Proof. destruct a, b; simpl; split; congruence. Qed.

(** Clamping [timeTaken] touches no other field. *)
Lemma clamp_fields (u : Task) :
  let u' := if (timeTaken u <=? 0)%float then set_timeTaken 1 u else u in
  id u' = id u /\ status u' = status u /\ createdAt u' = createdAt u /\
  completedAt u' = completedAt u.
Proof. simpl. destruct (timeTaken u <=? 0)%float; repeat split. Qed.

Lemma updateOne_other now tid patch t :
  id t <> tid -> updateOne now tid patch t = t.
Proof.
  intros Hne. unfold updateOne.
  destruct (id t =? tid)%string eqn:E; [| reflexivity].
  apply String.eqb_eq in E. contradiction.
Qed.

Lemma updateOne_stamped now patch t :
  status t <> Done -> status (merge t patch) = Done ->
  completedAt (updateOne now (id t) patch t) = Some now /\
  createdAt (updateOne now (id t) patch t) = createdAt (merge t patch).
Proof.
  intros Hs Hm. unfold updateOne. rewrite String.eqb_refl. simpl negb. cbv iota.
  apply Status_eqb_neq in Hs. apply Status_eqb_eq in Hm. rewrite Hs, Hm. simpl andb. cbv iota.
  destruct (clamp_fields (set_completedAt (Some now) (merge t patch))) as (_ & _ & Ec & Ed).
  cbv zeta in Ec, Ed. rewrite Ec, Ed. split; reflexivity.
Qed.

Lemma updateOne_unstamped now patch t :
  status t = Done \/ status (merge t patch) <> Done ->
  completedAt (updateOne now (id t) patch t) = completedAt (merge t patch).
Proof.
  intros H. unfold updateOne. rewrite String.eqb_refl. simpl negb. cbv iota.
  assert (E : negb (Status_eqb (status t) Done) && Status_eqb (status (merge t patch)) Done = false).
  { destruct H as [H | H].
    - apply Status_eqb_eq in H. rewrite H. reflexivity.
    - apply Status_eqb_neq in H. rewrite H. apply andb_false_r. }
  rewrite E.
  destruct (clamp_fields (merge t patch)) as (_ & _ & _ & Ed).
  cbv zeta in Ed. exact Ed.
Qed.

Lemma updateOne_id now tid patch t :
  p_id patch = None -> id (updateOne now tid patch t) = id t.
Proof.
  intros Hp. unfold updateOne.
  destruct (negb (id t =? tid)%string); [reflexivity |].
  set (u1 := merge t patch).
  assert (E1 : id u1 = id t) by (unfold u1; simpl; rewrite Hp; reflexivity).
  set (u2 := if negb (Status_eqb (status t) Done) && Status_eqb (status u1) Done
             then set_completedAt (Some now) u1 else u1).
  assert (E2 : id u2 = id u1) by (unfold u2; destruct (_ && _); reflexivity).
  destruct (clamp_fields u2) as (Ei & _). cbv zeta in Ei. rewrite Ei, E2. exact E1.
Qed.

(** C2 (as amended).  For a task [t] of the collection with the updated id:
    when [t] was not Done and the merged status is Done, [updateTask] sets
    [completedAt] to the current time, which is [>= createdAt] whenever the
    task's (merged) [createdAt] is not later than the clock; when [t] was Done
    and the merged status is not Done, [completedAt] is what the merge gives:
    the value carried by the patch if it carries one, and otherwise the
    previous value, unchanged and not cleared. *)
Theorem updateTask_completedAt now tid patch s i t :
  nth_error (tasks s) i = Some t -> id t = tid ->
  exists t',
    nth_error (tasks (updateTask now tid patch s)) i = Some t' /\
    (status t <> Done -> status (merge t patch) = Done ->
       completedAt t' = Some now /\
       ((createdAt t' <= now)%Z ->
          exists c, completedAt t' = Some c /\ (createdAt t' <= c)%Z)) /\
    (status t = Done -> status (merge t patch) <> Done ->
       completedAt t' = completedAt (merge t patch) /\
       (p_completedAt patch = None -> completedAt t' = completedAt t)).
Proof.
  intros Hi <-. exists (updateOne now (id t) patch t). split; [| split].
  - rewrite updateTask_nth, Hi. reflexivity.
  - intros Hs Hm. destruct (updateOne_stamped now patch t Hs Hm) as [Ec _].
    split; [exact Ec |]. intros Hle. exists now. split; [exact Ec | exact Hle].
  - intros Hs Hm. rewrite updateOne_unstamped by (left; exact Hs).
    split; [reflexivity |]. intros Hp. simpl. rewrite Hp. reflexivity.
Qed.

(** Use of C2: Todo -> Done at time 10 on a task created at time 3. *)
Lemma updateTask_completedAt_witness :
  exists t',
    nth_error (tasks (updateTask 10 "a"
                        (mkPatch None None None None None (Some Done) None None None)
                        (mkState [exampleTask "a" 100 2 Todo 3 None] false None None false))) 0
      = Some t' /\
    completedAt t' = Some 10%Z.
Proof.
  destruct (@updateTask_completedAt 10%Z "a"
              (mkPatch None None None None None (Some Done) None None None)
              (mkState [exampleTask "a" 100 2 Todo 3 None] false None None false)
              0%nat (exampleTask "a" 100 2 Todo 3 None) eq_refl eq_refl)
    as (t' & Hn & Hset & _).
  exists t'. split; [exact Hn |].
  apply Hset; [discriminate | reflexivity].
Defined.

(** C2 as stated fails: a task that [tasks.json] dates later (2000) than the
    clock (1000) gets a stamp earlier than its [createdAt]; and a Done task
    patched to Todo with a [completedAt] of the patch's own does not keep its
    previous [completedAt]. *)
Lemma updateTask_completedAt_counterexample :
  (let r := mkRawTask (Some "a") None (JS.Num 100) (JS.Num 2) None (Some Todo) None
                      (DateGiven (Some 2000%Z)) None in
   let patch := mkPatch None None None None None (Some Done) None None None in
   exists t t',
     snd (@normalizeTasks exampleHost 1000 (fun _ => "u") (ArrayOf [ElemRecord r]))
       = inr [t] /\
     status t <> Done /\ status (merge t patch) = Done /\
     nth_error (tasks (updateTask 1000 "a" patch
                         (mkState [t] false None None false))) 0 = Some t' /\
     completedAt t' = Some 1000%Z /\ (1000 < createdAt t')%Z) /\
  (let t := exampleTask "a" 100 2 Done 10 (Some 50%Z) in
   let s := mkState [t] false None None false in
   let patch := mkPatch None None None None None (Some Todo) None None (Some (Some 77%Z)) in
   exists t',
     status t = Done /\ status (merge t patch) <> Done /\
     nth_error (tasks (updateTask 1000 "a" patch s)) 0 = Some t' /\
     completedAt t' <> completedAt t).
Proof.
  split; cbv zeta.
  - eexists. eexists. split; [vm_compute; reflexivity |].
    repeat split; try discriminate; reflexivity.
  - eexists. repeat split; try discriminate; reflexivity.
Qed.

(** C9 (as amended).  [updateTask] changes an id only through the patch's own
    [id] field: after any sequence of [updateTask] calls whose patches carry
    no [id], every position of the collection holds the id it held before. *)
Theorem updateTask_preserves_ids calls s :
  Forall (fun c => p_id (snd c) = None) calls ->
  map id (tasks (runUpdates calls s)) = map id (tasks s).
Proof.
  revert s. induction calls as [| [[now tid] patch] calls IH]; intros s Hc.
  - reflexivity.
  - inversion Hc as [| ? ? Hp Hrest]; subst. simpl in Hp.
    change (runUpdates ((now, tid, patch) :: calls) s)
      with (runUpdates calls (updateTask now tid patch s)).
    rewrite IH by exact Hrest.
    rewrite updateTask_tasks, map_map.
    apply map_ext. intros t. apply updateOne_id. exact Hp.
Qed.

(** Use of C9: two updates of task "a" that carry no id. *)
Lemma updateTask_preserves_ids_witness :
  map id (tasks (runUpdates
                   [(1%Z, "a", mkPatch None (Some "renamed") None None None None None None None);
                    (2%Z, "a", mkPatch None None None None None (Some Done) None None None)]
                   (mkState [exampleTask "a" 100 2 Todo 0 None;
                             exampleTask "b" 300 3 Todo 0 None] false None None false)))
  = ["a"; "b"].
Proof.
  apply (@updateTask_preserves_ids
           [(1%Z, "a", mkPatch None (Some "renamed") None None None None None None None);
            (2%Z, "a", mkPatch None None None None None (Some Done) None None None)]
           (mkState [exampleTask "a" 100 2 Todo 0 None;
                     exampleTask "b" 300 3 Todo 0 None] false None None false)).
  repeat constructor.
Defined.

(** C9 as stated fails: a patch that carries an [id] replaces the id of the
    task it is merged onto. *)
Lemma updateTask_preserves_ids_counterexample :
  let s := mkState [exampleTask "a" 100 2 Todo 0 None] false None None false in
  let patch := mkPatch (Some "z") None None None None None None None None in
  map id (tasks s) = ["a"] /\
  map id (tasks (runUpdates [(1%Z, "a", patch)] s)) = ["z"].
Proof. split; reflexivity. Qed.

(** C10.  [updateTask] keeps the length of the collection, leaves every task
    with another id as it is and where it is, puts at every position the
    (possibly updated) task that was there, and changes nothing at all when
    no task has the given id. *)
Theorem updateTask_frame now tid patch s :
  List.length (tasks (updateTask now tid patch s)) = List.length (tasks s) /\
  (forall i t, nth_error (tasks s) i = Some t -> id t <> tid ->
               nth_error (tasks (updateTask now tid patch s)) i = Some t) /\
  (forall i, nth_error (tasks (updateTask now tid patch s)) i =
             option_map (updateOne now tid patch) (nth_error (tasks s) i)) /\
  (loading (updateTask now tid patch s) = loading s /\
   error (updateTask now tid patch s) = error s /\
   lastDeleted (updateTask now tid patch s) = lastDeleted s /\
   undoOpen (updateTask now tid patch s) = undoOpen s) /\
  ((forall t, In t (tasks s) -> id t <> tid) -> updateTask now tid patch s = s).
Proof.
  split; [| split; [| split; [| split]]].
  - rewrite updateTask_tasks. apply length_map.
  - intros i t Hi Hne. rewrite updateTask_nth, Hi. simpl.
    rewrite updateOne_other by exact Hne. reflexivity.
  - intros i. apply updateTask_nth.
  - repeat split.
  - intros Hno. destruct s as [ts l e d u]. unfold updateTask, setTasks. simpl in *.
    f_equal. rewrite <- (map_id ts) at 2. apply map_ext_in.
    intros t Hin. apply updateOne_other. apply Hno. exact Hin.
Qed.

(* ================================================================= *)
(** ** The delete/undo cell *)

Lemma deleteTask_cells tid s :
  tasks (deleteTask tid s) = filter (fun t => negb (id t =? tid)%string) (tasks s) /\
  lastDeleted (deleteTask tid s) = find (fun t => (id t =? tid)%string) (tasks s) /\
  undoOpen (deleteTask tid s) = true /\
  loading (deleteTask tid s) = loading s /\
  error (deleteTask tid s) = error s.
Proof. repeat split. Qed.

Lemma undoDelete_restores s held :
  lastDeleted s = Some held -> undoOpen s = true ->
  undoDelete s = mkState (tasks s ++ [held]) (loading s) (error s) None false.
Proof. intros Hl Hu. unfold undoDelete. rewrite Hl, Hu. reflexivity. Qed.

Lemma undoDelete_noop s :
  lastDeleted s = None \/ undoOpen s = false -> undoDelete s = s.
Proof.
  intros [H | H]; unfold undoDelete.
  - rewrite H. reflexivity.
  - rewrite H. destruct (lastDeleted s); reflexivity.
Qed.

Lemma find_first tid (l1 l2 : list Task) t :
  (forall u, In u l1 -> id u <> tid) -> id t = tid ->
  find (fun u => (id u =? tid)%string) (l1 ++ t :: l2) = Some t.
Proof.
  intros Hl1 Ht. induction l1 as [| u l1 IH]; simpl.
  - rewrite Ht, String.eqb_refl. reflexivity.
  - destruct (id u =? tid)%string eqn:E.
    + apply String.eqb_eq in E. exfalso. apply (Hl1 u); [left; reflexivity | exact E].
    + apply IH. intros v Hv. apply Hl1. right. exact Hv.
Qed.

Lemma filter_others tid (l : list Task) :
  (forall u, In u l -> id u <> tid) ->
  filter (fun u => negb (id u =? tid)%string) l = l.
Proof.
  intros Hl. induction l as [| u l IH]; simpl; [reflexivity |].
  destruct (id u =? tid)%string eqn:E.
  - apply String.eqb_eq in E. exfalso. apply (Hl u); [left; reflexivity | exact E].
  - simpl. f_equal. apply IH. intros v Hv. apply Hl. right. exact Hv.
Qed.

Lemma filter_drops tid (l : list Task) u :
  In u (filter (fun v => negb (id v =? tid)%string) l) -> id u <> tid.
Proof.
  intros Hin. apply filter_In in Hin. destruct Hin as [_ Hn].
  apply negb_true_iff in Hn. apply String.eqb_neq in Hn. exact Hn.
Qed.

Lemma find_filter_other a b (l : list Task) :
  a <> b ->
  find (fun t => (id t =? b)%string) (filter (fun t => negb (id t =? a)%string) l) =
  find (fun t => (id t =? b)%string) l.
Proof.
  intros Hab. induction l as [| u l IH]; simpl; [reflexivity |].
  destruct (id u =? a)%string eqn:Ea; simpl.
  - apply String.eqb_eq in Ea.
    destruct (id u =? b)%string eqn:Eb; [| exact IH].
    apply String.eqb_eq in Eb. congruence.
  - rewrite IH. reflexivity.
Qed.

Lemma NoDup_ids_split (l1 l2 : list Task) t :
  NoDup (map id (l1 ++ t :: l2)) ->
  forall u, In u (l1 ++ l2) -> id u <> id t.
Proof.
  rewrite map_app. simpl. intros Hnd u Hu E.
  apply NoDup_remove_2 in Hnd. apply Hnd.
  rewrite <- map_app, <- E. apply in_map. exact Hu.
Qed.

(** C3 (as amended).  In a collection whose ids are pairwise distinct,
    [deleteTask(t.id)] followed at once by [undoDelete()] gives the original
    tasks with [t] moved to the end, and leaves the undo machine Idle with
    nothing held; and [undoDelete] on a state that holds nothing, or whose
    undo window is closed, changes nothing. *)
Theorem delete_then_undo s t :
  NoDup (map id (tasks s)) -> In t (tasks s) ->
  let s2 := undoDelete (deleteTask (id t) s) in
  (exists l1 l2, tasks s = l1 ++ t :: l2 /\ tasks s2 = l1 ++ l2 ++ [t]) /\
  lastDeleted s2 = None /\ undoOpen s2 = false /\ undoState s2 = Idle /\
  (forall s', lastDeleted s' = None \/ undoOpen s' = false -> undoDelete s' = s').
Proof.
  intros Hnd Hin. cbv zeta.
  destruct (in_split _ _ Hin) as (l1 & l2 & Es).
  rewrite Es in Hnd. pose proof (NoDup_ids_split _ _ _ Hnd) as Hothers.
  assert (Hfind : lastDeleted (deleteTask (id t) s) = Some t).
  { unfold deleteTask; simpl. rewrite Es. apply find_first; [| reflexivity].
    intros u Hu. apply Hothers. apply in_or_app. left. exact Hu. }
  assert (Hfilter : tasks (deleteTask (id t) s) = l1 ++ l2).
  { unfold deleteTask; simpl. rewrite Es, filter_app. simpl.
    rewrite String.eqb_refl. simpl.
    rewrite !filter_others; [reflexivity | |];
      intros u Hu; apply Hothers; apply in_or_app; [right | left]; exact Hu. }
  rewrite (undoDelete_restores _ Hfind eq_refl). cbn [tasks].
  split; [| repeat split].
  - exists l1, l2. split; [exact Es |]. rewrite Hfilter, app_assoc. reflexivity.
  - intros s'. apply undoDelete_noop.
Qed.

(** Use of C3: deleting and restoring "a" in the collection ["a"; "b"]. *)
Lemma delete_then_undo_witness :
  let s := mkState [exampleTask "a" 100 2 Todo 0 None;
                    exampleTask "b" 300 3 Todo 0 None] false None None false in
  let t := exampleTask "a" 100 2 Todo 0 None in
  (exists l1 l2, tasks s = l1 ++ t :: l2 /\
                 tasks (undoDelete (deleteTask (id t) s)) = l1 ++ l2 ++ [t]) /\
  lastDeleted (undoDelete (deleteTask (id t) s)) = None /\
  undoOpen (undoDelete (deleteTask (id t) s)) = false /\
  undoState (undoDelete (deleteTask (id t) s)) = Idle /\
  (forall s', lastDeleted s' = None \/ undoOpen s' = false -> undoDelete s' = s').
Proof.
  cbv zeta.
  apply (@delete_then_undo
           (mkState [exampleTask "a" 100 2 Todo 0 None;
                     exampleTask "b" 300 3 Todo 0 None] false None None false)
           (exampleTask "a" 100 2 Todo 0 None)).
  - simpl. constructor; [intros [H | []]; discriminate H |].
    constructor; [intros [] | constructor].
  - left. reflexivity.
Defined.

(** C3 as stated fails on a collection with a repeated id, which two
    [addTask] calls with the same supplied id produce: the delete removes
    both tasks and the undo restores only the first. *)
Lemma delete_then_undo_counterexample :
  let s := addTask 2 "u2" (exampleInput (Some "x") 300 3 Todo)
             (addTask 1 "u1" (exampleInput (Some "x") 100 2 Todo) initialState) in
  let t1 := exampleTask "x" 100 2 Todo 1 None in
  let t2 := exampleTask "x" 300 3 Todo 2 None in
  tasks s = [t1; t2] /\
  tasks (undoDelete (deleteTask (id t2) s)) = [t1] /\
  ~ In t2 (tasks (undoDelete (deleteTask (id t2) s))).
Proof.
  cbv zeta. split; [reflexivity | split; [reflexivity |]].
  intros [H | []]. discriminate H.
Qed.

(** C4 (as amended).  The cell holds one task.  [deleteTask] stores the
    first task that carries the id (or nothing), whatever was held before.
    For a task [A] of the collection and a task [B] that is the first to
    carry its id, with an id other than [A]'s (as is the case for any two
    tasks when ids are pairwise distinct): after deleting [A] and then [B]
    with no undo in between, [undoDelete] restores [B] at the end of the
    collection and nothing else: [A] is neither in the collection nor held,
    and a further [undoDelete] changes nothing.  After [deleteTask] and
    [clearUndo], [undoDelete] changes nothing and nothing is held. *)
Theorem single_slot_cell s :
  (forall tid held,
      lastDeleted (deleteTask tid (setLastDeleted held s)) =
      find (fun t => (id t =? tid)%string) (tasks s) /\
      undoOpen (deleteTask tid (setLastDeleted held s)) = true) /\
  (forall A B,
      In A (tasks s) ->
      find (fun t => (id t =? id B)%string) (tasks s) = Some B ->
      id A <> id B ->
      let s2 := deleteTask (id B) (deleteTask (id A) s) in
      lastDeleted (deleteTask (id A) s) = find (fun t => (id t =? id A)%string) (tasks s) /\
      lastDeleted s2 = Some B /\
      tasks (undoDelete s2) = tasks s2 ++ [B] /\
      ~ In A (tasks (undoDelete s2)) /\
      lastDeleted (undoDelete s2) = None /\
      undoDelete (undoDelete s2) = undoDelete s2) /\
  (forall tid,
      let s1 := clearUndo (deleteTask tid s) in
      undoDelete s1 = s1 /\
      tasks (undoDelete s1) = tasks (deleteTask tid s) /\
      lastDeleted (undoDelete s1) = None).
Proof.
  split; [| split].
  - intros tid held. split; reflexivity.
  - intros A B HA HB Hne. cbv zeta.
    assert (Hheld : lastDeleted (deleteTask (id B) (deleteTask (id A) s)) = Some B).
    { destruct (deleteTask_cells (id B) (deleteTask (id A) s)) as (_ & El & _).
      rewrite El. destruct (deleteTask_cells (id A) s) as (Et & _). rewrite Et.
      rewrite find_filter_other by exact Hne. exact HB. }
    rewrite (undoDelete_restores _ Hheld eq_refl). cbn [tasks lastDeleted].
    split; [reflexivity |]. split; [exact Hheld |]. split; [reflexivity |].
    split; [| split; [reflexivity |]].
    + intros Hin. apply in_app_or in Hin. destruct Hin as [Hin | [E | []]].
      * destruct (deleteTask_cells (id B) (deleteTask (id A) s)) as (Et & _).
        rewrite Et in Hin. apply filter_In in Hin. destruct Hin as [Hin _].
        destruct (deleteTask_cells (id A) s) as (Et' & _). rewrite Et' in Hin.
        apply filter_drops in Hin. apply Hin. reflexivity.
      * apply Hne. rewrite E. reflexivity.
    + apply undoDelete_noop. left. reflexivity.
  - intros tid. cbv zeta.
    assert (E : undoDelete (clearUndo (deleteTask tid s)) = clearUndo (deleteTask tid s))
      by (apply undoDelete_noop; left; reflexivity).
    rewrite E. repeat split.
Qed.

(** Use of C4: delete "a", then "b", then undo, in ["a"; "b"; "c"]. *)
Lemma single_slot_cell_witness :
  let A := exampleTask "a" 100 2 Todo 0 None in
  let B := exampleTask "b" 300 3 Todo 0 None in
  let s := mkState [A; B; exampleTask "c" 50 1 Done 0 (Some 5%Z)] false None None false in
  lastDeleted (deleteTask (id B) (deleteTask (id A) s)) = Some B /\
  ~ In A (tasks (undoDelete (deleteTask (id B) (deleteTask (id A) s)))).
Proof.
  cbv zeta.
  destruct (proj1 (proj2 (@single_slot_cell
              (mkState [exampleTask "a" 100 2 Todo 0 None;
                        exampleTask "b" 300 3 Todo 0 None;
                        exampleTask "c" 50 1 Done 0 (Some 5%Z)] false None None false)))
              (exampleTask "a" 100 2 Todo 0 None)
              (exampleTask "b" 300 3 Todo 0 None)
              (or_introl eq_refl) eq_refl)
    as (_ & Hheld & _ & Hlost & _).
  - discriminate.
  - split; [exact Hheld | exact Hlost].
Defined.

(** C4 as stated fails on a collection with a repeated id, which [addTask]
    calls with a supplied id produce: with tasks x1, x2 (both of id "x") and
    y, deleting y and then x2's id holds x1, the first task of that id;
    [undoDelete] restores x1, and x2 is in neither the collection nor the
    cell. *)
Lemma single_slot_cell_counterexample :
  let s := addTask 3 "u3" (exampleInput (Some "y") 50 1 Todo)
             (addTask 2 "u2" (exampleInput (Some "x") 300 3 Todo)
                (addTask 1 "u1" (exampleInput (Some "x") 100 2 Todo) initialState)) in
  let x1 := exampleTask "x" 100 2 Todo 1 None in
  let x2 := exampleTask "x" 300 3 Todo 2 None in
  let y := exampleTask "y" 50 1 Todo 3 None in
  tasks s = [x1; x2; y] /\
  lastDeleted (deleteTask (id x2) (deleteTask (id y) s)) = Some x1 /\
  lastDeleted (deleteTask (id x2) (deleteTask (id y) s)) <> Some x2 /\
  tasks (undoDelete (deleteTask (id x2) (deleteTask (id y) s))) = [x1] /\
  ~ In x2 (tasks (undoDelete (deleteTask (id x2) (deleteTask (id y) s)))) /\
  lastDeleted (undoDelete (deleteTask (id x2) (deleteTask (id y) s))) = None.
Proof.
  cbv zeta. repeat split.
  - intros E. discriminate E.
  - intros [E | []]. discriminate E.
Qed.

(* ================================================================= *)
(** ** [addTask] *)

Lemma NoDup_snoc {A} (l : list A) (a : A) :
  NoDup (l ++ [a]) <-> NoDup l /\ ~ In a l.
Proof.
  split.
  - intros Hnd. pose proof (NoDup_remove _ _ _ Hnd) as [H1 H2].
    rewrite app_nil_r in H1, H2. split; assumption.
  - intros [Hnd Hnin]. induction l as [| b l IH]; simpl.
    + constructor; [intros [] | constructor].
    + inversion Hnd as [| ? ? Hb Hl]; subst. constructor.
      * intros Hin. apply in_app_or in Hin. destruct Hin as [Hin | [E | []]].
        -- contradiction.
        -- apply Hnin. left. symmetry. exact E.
      * apply IH; [exact Hl |]. intros Hin. apply Hnin. right. exact Hin.
Qed.

(** C5 (as amended).  [addTask] always returns: it appends exactly one
    task.  Its id is the supplied one, or else the value
    [crypto.randomUUID()] returned; the id is not checked against the
    collection, so on a collection with pairwise distinct ids the ids stay
    distinct exactly when that id is not in use.  Its [timeTaken] is 1 when
    the input's is [<= 0] and the input's as given otherwise: it is never
    [<= 0], and it is [> 0] unless the input is NaN, but it may be below 1.
    Its [createdAt] is the current time, its [completedAt] the current time
    if the status is Done and absent otherwise, its other fields the
    input's; no other state cell changes. *)
Theorem addTask_appends now uuid task s :
  exists t,
    tasks (addTask now uuid task s) = tasks s ++ [t] /\
    id t = match in_id task with Some i => i | None => uuid end /\
    (NoDup (map id (tasks s)) ->
     (NoDup (map id (tasks (addTask now uuid task s))) <->
      ~ In (id t) (map id (tasks s)))) /\
    timeTaken t =
      (if (in_timeTaken task <=? 0)%float then 1%float else in_timeTaken task) /\
    ((in_timeTaken task <=? 0)%float = true -> timeTaken t = 1%float) /\
    ((in_timeTaken task <=? 0)%float = false -> timeTaken t = in_timeTaken task) /\
    (timeTaken t <=? 0)%float = false /\
    (PrimFloat.is_nan (in_timeTaken task) = false -> (0 <? timeTaken t)%float = true) /\
    createdAt t = now /\
    (completedAt t = Some now <-> in_status task = Done) /\
    (in_status task <> Done -> completedAt t = None) /\
    (title t = in_title task /\ revenue t = in_revenue task /\
     priority t = in_priority task /\ status t = in_status task /\
     notes t = in_notes task) /\
    (loading (addTask now uuid task s) = loading s /\
     error (addTask now uuid task s) = error s /\
     lastDeleted (addTask now uuid task s) = lastDeleted s /\
     undoOpen (addTask now uuid task s) = undoOpen s).
Proof.
  eexists. split; [apply addTask_tasks |]. cbn [id timeTaken createdAt completedAt
    title revenue priority status notes].
  split; [reflexivity |]. split.
  { intros Hnd. rewrite addTask_tasks, map_app. simpl. rewrite NoDup_snoc.
    split; [intros [_ Hn]; exact Hn | intros Hn; split; assumption]. }
  split; [reflexivity |]. split.
  { intros Hle. rewrite Hle. reflexivity. }
  split.
  { intros Hle. rewrite Hle. reflexivity. }
  split.
  { destruct (in_timeTaken task <=? 0)%float eqn:Hle; [reflexivity | exact Hle]. }
  split.
  { intros Hnan. destruct (in_timeTaken task <=? 0)%float eqn:Hle; [reflexivity |].
    apply not_leb_zero_positive; assumption. }
  split; [reflexivity |]. split.
  { destruct (in_status task); simpl; split; congruence. }
  split.
  { destruct (in_status task); simpl; congruence. }
  split; repeat split.
Qed.

(** Use of C5: a task with [timeTaken = 0] and no id, added to the
    collection ["a"], is appended under the generated id with
    [timeTaken = 1]. *)
Lemma addTask_appends_witness :
  exists t,
    tasks (addTask 5 "u" (exampleInput None 10 0 Done)
             (mkState [exampleTask "a" 100 2 Todo 0 None] false None None false))
    = [exampleTask "a" 100 2 Todo 0 None; t] /\
    id t = "u" /\ timeTaken t = 1%float /\ completedAt t = Some 5%Z.
Proof.
  destruct (@addTask_appends 5%Z "u" (exampleInput None 10 0 Done)
              (mkState [exampleTask "a" 100 2 Todo 0 None] false None None false))
    as (t & Ht & Hid & _ & _ & Hone & _ & _ & _ & _ & Hdone & _).
  exists t. split; [exact Ht |]. split; [exact Hid |].
  split; [apply Hone; reflexivity | apply Hdone; reflexivity].
Defined.

(** C5 as stated fails: a [timeTaken] of 0.5 is stored as 0.5, below the
    floor of 1, and a NaN [timeTaken] is stored as NaN; and when
    [crypto.randomUUID()] returns an id already in use, the new task gets it
    all the same. *)
Lemma addTask_appends_counterexample :
  (exists t,
      tasks (addTask 0 "u" (exampleInput None 10 0.5 Todo) initialState) = [t] /\
      timeTaken t = 0.5%float /\ (timeTaken t <? 1)%float = true) /\
  (exists t,
      tasks (addTask 0 "u" (exampleInput None 10 nan Todo) initialState) = [t] /\
      PrimFloat.is_nan (timeTaken t) = true /\ (0 <? timeTaken t)%float = false) /\
  (map id (tasks (addTask 1 "a" (exampleInput None 10 1 Todo)
                    (mkState [exampleTask "a" 100 2 Todo 0 None]
                             false None None false))) = ["a"; "a"]).
Proof.
  split; [| split].
  - eexists. split; [reflexivity |]. split; reflexivity.
  - eexists. split; [reflexivity |]. split; reflexivity.
  - reflexivity.
Qed.

(* ================================================================= *)
(** ** The load *)

Lemma mapiM_no_calls {A B} (f : A -> nat -> M B) :
  (forall a i, fst (f a i) = []) ->
  forall l i, fst (mapiM f i l) = [].
Proof.
  intros Hf l. induction l as [| a l IH]; intros i; simpl; [reflexivity |].
  specialize (Hf a i). specialize (IH (S i)).
  destruct (f a i) as [c1 [e | b]]; simpl in *; [exact Hf |].
  destruct (mapiM f (S i) l) as [c2 [e | bs]]; simpl in *; subst; reflexivity.
Qed.

Lemma normalizeTask_no_calls `{Host} now uuid e idx :
  fst (normalizeTask now uuid e idx) = [].
Proof.
  destruct e as [| r]; simpl; [reflexivity |].
  destruct (raw_completedAt r); simpl.
  - destruct (toISOString _) as [c [e | x]] eqn:E; unfold toISOString in E;
      destruct (match raw_createdAt r with DateGiven d => d | DateAbsent => _ end);
      inversion E; reflexivity.
  - destruct (raw_status r) as [[] |]; simpl;
      repeat match goal with
             | |- context [toISOString ?d] => destruct d; simpl
             | |- context [plusMs ?d ?x] => destruct (plusMs d x); simpl
             end; reflexivity.
Qed.

Lemma normalizeTasks_no_calls `{Host} now uuid input :
  fst (normalizeTasks now uuid input) = [].
Proof. apply mapiM_no_calls. intros a i. apply normalizeTask_no_calls. Qed.

Lemma loadData_throws `{Host} `{Seed} now uuid world :
  load_fails now uuid world ->
  exists e, loadData now uuid world = ([CallFetch "/tasks.json"], inl e).
Proof.
  unfold load_fails, loadData, fetch, resJson, call.
  destruct world as [e | res]; [intros _; exists e; reflexivity |].
  unfold bind at 1. cbv iota.
  destruct (ok res); simpl negb; cbv iota.
  - intros [Hok | Hj]; [discriminate |].
    destruct (json res) as [e | data].
    + exists e. reflexivity.
    + destruct Hj as (c & e & En). exists e.
      pose proof (normalizeTasks_no_calls now uuid data) as Hc.
      rewrite En in *. simpl in Hc. subst c.
      unfold bind, ret. simpl. rewrite En. reflexivity.
  - intros _. eexists. reflexivity.
Qed.

Section Load.

Context `{Host} `{Seed}.

(** The generator's contract (section 6): [generate(n)] gives [n] records. *)
Hypothesis generate_length :
  forall n, List.length (generateSalesTasks n) = n.

(** C6.  While the hook is mounted: a load that succeeds with an empty
    sequence puts the generator's 50 tasks (a non-empty set) in the
    collection and records no error; a load that fails records an error
    message, leaves the collection as it was (empty on the first load) and
    never calls the generator.  In both cases [loading] is cleared. *)
Theorem loadTasks_asymmetry now uuid s world :
  (empty_success world ->
     tasks (fst (loadTasks now uuid world true s)) = generateSalesTasks 50 /\
     tasks (fst (loadTasks now uuid world true s)) <> [] /\
     error (fst (loadTasks now uuid world true s)) = error s /\
     loading (fst (loadTasks now uuid world true s)) = false /\
     snd (loadTasks now uuid world true s) =
       [CallFetch "/tasks.json"; CallGenerateSalesTasks 50]) /\
  (load_fails now uuid world ->
     (exists msg, error (fst (loadTasks now uuid world true s)) = Some msg) /\
     tasks (fst (loadTasks now uuid world true s)) = tasks s /\
     (s = initialState -> tasks (fst (loadTasks now uuid world true s)) = []) /\
     loading (fst (loadTasks now uuid world true s)) = false /\
     (forall n, ~ In (CallGenerateSalesTasks n)
                     (snd (loadTasks now uuid world true s)))).
Proof.
  split.
  - intros (st & ->). unfold loadTasks. simpl.
    split; [reflexivity |]. split; [| repeat split].
    intros E. pose proof (generate_length 50) as Hl. rewrite E in Hl. discriminate Hl.
  - intros Hf. destruct (loadData_throws now uuid world Hf) as (e & E).
    unfold loadTasks. rewrite E. simpl.
    split; [eexists; reflexivity |]. split; [reflexivity |].
    split; [intros ->; reflexivity |]. split; [reflexivity |].
    intros n [Hc | []]. discriminate Hc.
Qed.

End Load.

(** Use of C6 with a generator of [n] copies of one task: the first load,
    from an empty [tasks.json]. *)
Lemma loadTasks_asymmetry_witness :
  tasks (fst (@loadTasks exampleHost exampleSeed 0 (fun _ => "u")
                (inr (mkResponse true 200 (inr (ArrayOf [])))) true initialState))
  <> [].
Proof.
  refine (proj1 (proj2 (proj1
    (@loadTasks_asymmetry exampleHost exampleSeed _ 0%Z (fun _ => "u") initialState
       (inr (mkResponse true 200 (inr (ArrayOf []))))) _))).
  - intros n. apply repeat_length.
  - exists 200%nat. reflexivity.
Defined.

(** A body that parses but is not an array is read as the empty sequence:
    it takes the fallback, not the error path. *)
Lemma loadTasks_not_an_array `{Host} `{Seed} now uuid s st :
  loadTasks now uuid (inr (mkResponse true st (inr NotAnArray))) true s =
  (setLoading false (setTasks (fun _ => generateSalesTasks 50) s),
   [CallFetch "/tasks.json"; CallGenerateSalesTasks 50]).
Proof. reflexivity. Qed.

(** After teardown the settled load touches no state cell. *)
Lemma loadTasks_unmounted `{Host} `{Seed} now uuid world s :
  fst (loadTasks now uuid world false s) = s.
Proof.
  unfold loadTasks. destruct (loadData now uuid world) as [c [e | l]]; reflexivity.
Qed.

(** [load_fails] is exactly "the [try] block throws". *)
Lemma load_fails_iff `{Host} `{Seed} now uuid world :
  load_fails now uuid world <->
  exists c e, loadData now uuid world = (c, inl e).
Proof.
  split.
  - intros Hf. destruct (loadData_throws now uuid world Hf) as (e & E). eauto.
  - intros (c & e & E). unfold load_fails.
    destruct world as [e0 | res]; [exact I |].
    destruct (ok res) eqn:Hok; [right | left; reflexivity].
    destruct (json res) as [e0 | data] eqn:Hj; [exact I |].
    destruct (normalizeTasks now uuid data) as [c' [e' | l]] eqn:En; [eauto |].
    exfalso. unfold loadData, fetch, resJson, call, bind, ret in E.
    rewrite Hok, Hj in E. simpl in E. rewrite En in E.
    destruct (0 <? Datatypes.length l)%nat; simpl in E; discriminate E.
Qed.

(** Failing loads: an HTTP error, and an array with a [null] element. *)
Example loadTasks_http_error :
  fst (@loadTasks exampleHost exampleSeed 0 (fun _ => "u")
         (inr (mkResponse false 404 (inr (ArrayOf [])))) true initialState)
  = mkState [] false (Some "Failed to load tasks.json (404)") None false.
Proof. reflexivity. Qed.

Example loadTasks_null_element :
  @loadTasks exampleHost exampleSeed 0 (fun _ => "u")
    (inr (mkResponse true 200 (inr (ArrayOf [ElemNull])))) true initialState
  = (mkState [] false
       (Some "Cannot read properties of null (reading 'createdAt')") None false,
     [CallFetch "/tasks.json"]).
Proof. reflexivity. Qed.

(* ================================================================= *)
(** ** Metrics *)

(** C8.  On the empty collection [metrics] is the sentinel
    [INITIAL_METRICS], every numeric field 0 and the grade "Needs
    Improvement", whatever the helpers of [@/utils/logic] compute: the empty
    check comes first and none of them is consulted. *)
Theorem metrics_empty `{Logic} :
  metrics [] = INITIAL_METRICS /\
  totalRevenue (metrics []) = 0%float /\
  totalTimeTaken (metrics []) = 0%float /\
  timeEfficiencyPct (metrics []) = 0%float /\
  revenuePerHour (metrics []) = 0%float /\
  averageROI (metrics []) = 0%float /\
  performanceGrade (metrics []) = "Needs Improvement".
Proof. repeat split. Qed.

(** C7.  With the helpers as section 4.2 describes them, on a non-empty
    collection [averageROI] is the mean of the per-task ratios
    [revenue / timeTaken] and [revenuePerHour] is the ratio of the two
    totals; on A (100 over 2) and B (300 over 3) the first is 75 and the
    second 80. *)
Theorem metrics_mean_of_ratios efficiency grade ts :
  ts <> [] ->
  averageROI (@metrics (SpecLogic efficiency grade) ts) =
    (sumOver roi ts / JS.ofNat (List.length ts))%float /\
  revenuePerHour (@metrics (SpecLogic efficiency grade) ts) =
    (totalRevenue (@metrics (SpecLogic efficiency grade) ts) /
     totalTimeTaken (@metrics (SpecLogic efficiency grade) ts))%float /\
  totalRevenue (@metrics (SpecLogic efficiency grade) ts) = sumOver revenue ts /\
  totalTimeTaken (@metrics (SpecLogic efficiency grade) ts) = sumOver timeTaken ts /\
  (forall A B,
      revenue A = 100%float -> timeTaken A = 2%float ->
      revenue B = 300%float -> timeTaken B = 3%float ->
      roi A = 50%float /\ roi B = 100%float /\
      averageROI (@metrics (SpecLogic efficiency grade) [A; B]) = 75%float /\
      revenuePerHour (@metrics (SpecLogic efficiency grade) [A; B]) = 80%float /\
      averageROI (@metrics (SpecLogic efficiency grade) [A; B]) <>
      revenuePerHour (@metrics (SpecLogic efficiency grade) [A; B])).
Proof.
  intros Hne. destruct ts as [| t ts]; [contradiction |].
  split; [reflexivity |]. split; [reflexivity |].
  split; [reflexivity |]. split; [reflexivity |].
  intros A B HrA HtA HrB HtB.
  unfold metrics, roi. simpl.
  unfold spec_computeAverageROI, spec_computeRevenuePerHour,
    spec_computeTotalRevenue, sumOver, roi. simpl.
  rewrite HrA, HtA, HrB, HtB.
  repeat split. intros E. discriminate E.
Qed.

(** Use of C7 on the two tasks of section 8. *)
Lemma metrics_mean_of_ratios_witness :
  let A := exampleTask "A" 100 2 Todo 0 None in
  let B := exampleTask "B" 300 3 Todo 0 None in
  let m := @metrics (SpecLogic (fun _ => 0%float) (fun _ => "n/a")) [A; B] in
  averageROI m = 75%float /\ revenuePerHour m = 80%float.
Proof.
  cbv zeta.
  destruct (@metrics_mean_of_ratios (fun _ => 0%float) (fun _ => "n/a")
              [exampleTask "A" 100 2 Todo 0 None; exampleTask "B" 300 3 Todo 0 None])
    as (_ & _ & _ & _ & H).
  - discriminate.
  - destruct (H (exampleTask "A" 100 2 Todo 0 None) (exampleTask "B" 300 3 Todo 0 None)
                eq_refl eq_refl eq_refl eq_refl) as (_ & _ & Ha & Hr & _).
    split; [exact Ha | exact Hr].
Defined.

(* ================================================================= *)
(** ** More on [normalizeTasks] *)

Lemma mapiM_length {A B} (f : A -> nat -> M B) :
  forall l i c bs, mapiM f i l = (c, inr bs) -> List.length bs = List.length l.
Proof.
  induction l as [| a l IH]; intros i c bs E; simpl in E.
  - inversion E. reflexivity.
  - apply bind_inr in E. destruct E as (c1 & b & c2 & Eb & E & _).
    apply bind_inr in E. destruct E as (c3 & bs' & c4 & Ebs & E & _).
    inversion E; subst. simpl. f_equal. eauto.
Qed.

(** The [k]-th result is the callback's value on the [k]-th element, called
    with the index [i + k]. *)
Lemma mapiM_nth {A B} (f : A -> nat -> M B) :
  forall l i c bs, mapiM f i l = (c, inr bs) ->
  forall k a, nth_error l k = Some a ->
  exists c' b, f a (i + k)%nat = (c', inr b) /\ nth_error bs k = Some b.
Proof.
  induction l as [| a0 l IH]; intros i c bs E k a Hk.
  - destruct k; discriminate Hk.
  - simpl in E.
    apply bind_inr in E. destruct E as (c1 & b & c2 & Eb & E & _).
    apply bind_inr in E. destruct E as (c3 & bs' & c4 & Ebs & E & _).
    inversion E; subst. destruct k as [| k]; simpl in Hk.
    + inversion Hk; subst. rewrite Nat.add_0_r. exists c1, b. auto.
    + destruct (IH _ _ _ Ebs k a Hk) as (c' & b' & Ef & Hn).
      exists c', b'. rewrite Nat.add_succ_r. auto.
Qed.


(** [normalizeTask] is governed by [createdOf]. *)
Lemma normalizeTask_created `{Host} now uuid r idx c t :
  normalizeTask now uuid (ElemRecord r) idx = (c, inr t) ->
  createdOf now idx r = Some (createdAt t) /\
  completedAt t =
    match raw_completedAt r with
    | Some x => Some x
    | None => match raw_status r with
              | Some Done => Some (createdAt t + 24 * 3600 * 1000)%Z
              | _ => None
              end
    end /\
  status t = match raw_status r with Some x => x | None => Todo end /\
  id t = match raw_id r with Some i => i | None => uuid idx end.
Proof.
  simpl. fold (createdOf now idx r). intros E.
  apply bind_inr in E. destruct E as (c1 & completed & c2 & Ec & E & _).
  apply bind_inr in E. destruct E as (c3 & iso & c4 & Ei & E & _).
  inversion E; subst; clear E. simpl.
  destruct (createdOf now idx r) as [ms |]; simpl in Ei; [| discriminate Ei].
  inversion Ei; subst. split; [reflexivity |]. split; [| split; reflexivity].
  destruct (raw_completedAt r) as [x |]; [inversion Ec; reflexivity |].
  destruct (raw_status r) as [[] |]; try (inversion Ec; reflexivity).
  simpl in Ec. unfold JS.newDate in Ec.
  match type of Ec with context [if ?b then _ else _] => destruct b end;
    simpl in Ec; [inversion Ec; reflexivity | discriminate Ec].
Qed.


Lemma normalizeTasks_nth `{Host} now uuid items c result :
  normalizeTasks now uuid (ArrayOf items) = (c, inr result) ->
  forall k e, nth_error items k = Some e ->
  exists c' t, normalizeTask now uuid e k = (c', inr t) /\ nth_error result k = Some t.
Proof.
  unfold normalizeTasks. intros E k e Hk.
  destruct (mapiM_nth _ _ _ E k Hk) as (c' & t & Ef & Hn).
  exists c', t. split; [exact Ef | exact Hn].
Qed.

(** X1.  When [normalizeTasks] returns, it returns one task per element of
    the array, in the same order of positions: nothing is dropped or added
    (and a value that is not an array gives no task). *)
Theorem normalizeTasks_length `{Host} now uuid input c result :
  normalizeTasks now uuid input = (c, inr result) ->
  List.length result =
  match input with ArrayOf items => List.length items | NotAnArray => 0%nat end.
Proof.
  unfold normalizeTasks. intros E. apply mapiM_length in E.
  destruct input; exact E.
Qed.

Lemma normalizeTasks_length_witness :
  List.length
    (returned (@normalizeTasks exampleHost 0 (fun _ => "u")
       (ArrayOf [ElemRecord (exampleRaw (JS.Num 5) (JS.Num 1));
                 ElemRecord (exampleRaw JS.Undefined JS.Null)]))) = 2%nat.
Proof.
  apply (@normalizeTasks_length exampleHost 0%Z (fun _ => "u")
           (ArrayOf [ElemRecord (exampleRaw (JS.Num 5) (JS.Num 1));
                     ElemRecord (exampleRaw JS.Undefined JS.Null)]) []).
  reflexivity.
Defined.


(** X3.  After [normalizeTasks] every Done task has a [completedAt]: the one
    of the record, or else one day after its [createdAt]. *)
Theorem normalizeTasks_done_completed `{Host} now uuid input c result :
  normalizeTasks now uuid input = (c, inr result) ->
  Forall (fun t => status t = Done -> exists x, completedAt t = Some x) result.
Proof.
  unfold normalizeTasks. intros E. eapply mapiM_Forall; [| exact E].
  intros e i c' t Et Hd. destruct e as [| r]; [discriminate Et |].
  destruct (normalizeTask_created _ _ _ _ Et) as (_ & Ec & Es & _).
  rewrite Ec. destruct (raw_completedAt r) as [x |]; [eauto |].
  rewrite Hd in Es. destruct (raw_status r) as [[] |]; try discriminate Es. eauto.
Qed.

Lemma normalizeTasks_done_completed_witness :
  Forall (fun t => status t = Done -> exists x, completedAt t = Some x)
    (returned (@normalizeTasks exampleHost 0 (fun _ => "u")
       (ArrayOf [ElemRecord (mkRawTask None None JS.Null JS.Null None (Some Done)
                               None DateAbsent None)]))).
Proof.
  apply (@normalizeTasks_done_completed exampleHost 0%Z (fun _ => "u")
           (ArrayOf [ElemRecord (mkRawTask None None JS.Null JS.Null None (Some Done)
                                   None DateAbsent None)]) []).
  reflexivity.
Defined.

(** X4.  Position by position: the task at index [k] keeps the record's id,
    or gets the k-th generated one; a record without [createdAt] is dated
    [k + 1] days before the clock; a Done record without [completedAt] is
    completed one day after its [createdAt]; a record that is not Done and
    has no [completedAt] stays without one. *)
Theorem normalizeTasks_positions `{Host} now uuid items c result :
  normalizeTasks now uuid (ArrayOf items) = (c, inr result) ->
  forall k r, nth_error items k = Some (ElemRecord r) ->
  exists t,
    nth_error result k = Some t /\
    id t = match raw_id r with Some i => i | None => uuid k end /\
    (raw_createdAt r = DateAbsent ->
     createdAt t = (now - (Z.of_nat k + 1) * 86400000)%Z) /\
    (raw_completedAt r = None -> raw_status r = Some Done ->
     completedAt t = Some (createdAt t + 86400000)%Z) /\
    (raw_completedAt r = None -> raw_status r <> Some Done ->
     completedAt t = None).
Proof.
  intros E k r Hk.
  destruct (normalizeTasks_nth _ _ _ E _ Hk) as (c' & t & Et & Hn).
  destruct (normalizeTask_created _ _ _ _ Et) as (Ecr & Eco & _ & Eid).
  exists t. split; [exact Hn |]. split; [exact Eid |]. split; [| split].
  - intros Ha. unfold createdOf, JS.newDate in Ecr. rewrite Ha in Ecr.
    match type of Ecr with context [if ?b then _ else _] => destruct b end;
      [| discriminate Ecr].
    injection Ecr as E'. rewrite <- E'. lia.
  - intros Hc Hs. rewrite Eco, Hc, Hs. reflexivity.
  - intros Hc Hs. rewrite Eco, Hc.
    destruct (raw_status r) as [[] |]; try reflexivity. contradiction Hs. reflexivity.
Qed.

Lemma normalizeTasks_positions_witness :
  exists t,
    nth_error (returned (@normalizeTasks exampleHost 1000000000 (fun _ => "u")
                 (ArrayOf [ElemRecord (exampleRaw (JS.Num 5) (JS.Num 1))]))) 0 = Some t /\
    id t = "r1".
Proof.
  destruct (@normalizeTasks_positions exampleHost 1000000000%Z (fun _ => "u")
              [ElemRecord (exampleRaw (JS.Num 5) (JS.Num 1))] []
              (returned (@normalizeTasks exampleHost 1000000000 (fun _ => "u")
                 (ArrayOf [ElemRecord (exampleRaw (JS.Num 5) (JS.Num 1))])))
              eq_refl 0%nat (exampleRaw (JS.Num 5) (JS.Num 1)) eq_refl)
    as (t & Hn & Hid & _).
  exists t. split; [exact Hn | exact Hid].
Defined.

(** X5.  Records without [createdAt] are dated in decreasing order: of two
    such records, the one later in the array gets the earlier [createdAt],
    a whole number of days apart. *)
Theorem normalizeTasks_backdated `{Host} now uuid items c result :
  normalizeTasks now uuid (ArrayOf items) = (c, inr result) ->
  forall j k rj rk tj tk,
    (j < k)%nat ->
    nth_error items j = Some (ElemRecord rj) -> raw_createdAt rj = DateAbsent ->
    nth_error items k = Some (ElemRecord rk) -> raw_createdAt rk = DateAbsent ->
    nth_error result j = Some tj -> nth_error result k = Some tk ->
    (createdAt tk < createdAt tj)%Z /\
    (createdAt tj - createdAt tk = (Z.of_nat k - Z.of_nat j) * 86400000)%Z.
Proof.
  intros E j k rj rk tj tk Hlt Hj Haj Hk Hak Hnj Hnk.
  assert (Hdate : forall i r t,
             nth_error items i = Some (ElemRecord r) -> raw_createdAt r = DateAbsent ->
             nth_error result i = Some t ->
             createdAt t = (now - (Z.of_nat i + 1) * 86400000)%Z).
  { intros i r t Hi Ha Hn.
    destruct (normalizeTasks_nth _ _ _ E _ Hi) as (c' & t' & Et & Hn').
    rewrite Hn in Hn'. inversion Hn'; subst t'.
    destruct (normalizeTask_created _ _ _ _ Et) as (Ecr & _).
    unfold createdOf, JS.newDate in Ecr. rewrite Ha in Ecr.
    match type of Ecr with context [if ?b then _ else _] => destruct b end;
      [| discriminate Ecr].
    injection Ecr as E'. rewrite <- E'. lia. }
  rewrite (Hdate _ _ _ Hj Haj Hnj), (Hdate _ _ _ Hk Hak Hnk). lia.
Qed.

Lemma normalizeTasks_backdated_witness :
  exists tj tk,
    nth_error (returned (@normalizeTasks exampleHost 1000000000 (fun _ => "u")
                 (ArrayOf [ElemRecord (exampleRaw (JS.Num 5) (JS.Num 1));
                           ElemRecord (exampleRaw (JS.Num 7) (JS.Num 2))]))) 0 = Some tj /\
    nth_error (returned (@normalizeTasks exampleHost 1000000000 (fun _ => "u")
                 (ArrayOf [ElemRecord (exampleRaw (JS.Num 5) (JS.Num 1));
                           ElemRecord (exampleRaw (JS.Num 7) (JS.Num 2))]))) 1 = Some tk /\
    (createdAt tk < createdAt tj)%Z.
Proof.
  eexists. eexists. split; [reflexivity |]. split; [reflexivity |].
  refine (proj1 (@normalizeTasks_backdated exampleHost 1000000000%Z (fun _ => "u")
            [ElemRecord (exampleRaw (JS.Num 5) (JS.Num 1));
             ElemRecord (exampleRaw (JS.Num 7) (JS.Num 2))] []
            _ eq_refl 0%nat 1%nat _ _ _ _ (le_n 1) eq_refl eq_refl eq_refl eq_refl
            eq_refl eq_refl)).
Defined.

(* ================================================================= *)
(** ** More on [loadTasks] *)

Lemma loadData_success `{Host} `{Seed} now uuid world c l :
  loadData now uuid world = (c, inr l) ->
  exists res data normalized,
    world = inr res /\ ok res = true /\ json res = inr data /\
    normalizeTasks now uuid data = ([], inr normalized) /\
    ((normalized <> [] /\ l = normalized /\ c = [CallFetch "/tasks.json"]) \/
     (normalized = [] /\ l = generateSalesTasks 50 /\
      c = [CallFetch "/tasks.json"; CallGenerateSalesTasks 50])).
Proof.
  unfold loadData, fetch, resJson, call. intros E.
  destruct world as [e | res]; [discriminate E |].
  unfold bind at 1 in E. cbv iota in E.
  destruct (ok res) eqn:Hok; [| discriminate E].
  destruct (json res) as [e | data] eqn:Hj; [discriminate E |].
  pose proof (normalizeTasks_no_calls now uuid data) as Hc.
  destruct (normalizeTasks now uuid data) as [c' [e | normalized]] eqn:En;
    simpl in Hc; subst c'; unfold bind, ret in E; simpl in E; rewrite En in E;
    [discriminate E |].
  exists res, data, normalized.
  split; [reflexivity |]. split; [exact Hok |]. split; [exact Hj |].
  split; [exact En |].
  destruct normalized as [| t l']; simpl in E; inversion E; subst.
  - right. auto.
  - left. split; [discriminate | auto].
Qed.

Lemma loadData_cases `{Host} `{Seed} now uuid world :
  (load_fails now uuid world /\
   exists e, loadData now uuid world = ([CallFetch "/tasks.json"], inl e)) \/
  (~ load_fails now uuid world /\
   exists c l, loadData now uuid world = (c, inr l)).
Proof.
  destruct (loadData now uuid world) as [c [e | l]] eqn:E.
  - assert (Hf : load_fails now uuid world) by (apply load_fails_iff; eauto).
    left. split; [exact Hf |].
    destruct (loadData_throws now uuid world Hf) as (e' & E'). rewrite E in E'.
    exists e'. exact E'.
  - right. split; [| eauto]. intros Hf.
    destruct (loadData_throws now uuid world Hf) as (e' & E'). rewrite E in E'.
    discriminate E'.
Qed.

(** X6.  Whatever the load's outcome, a mounted hook ends with [loading]
    cleared, and the load never touches the undo cell. *)
Theorem loadTasks_finally `{Host} `{Seed} now uuid world s :
  loading (fst (loadTasks now uuid world true s)) = false /\
  lastDeleted (fst (loadTasks now uuid world true s)) = lastDeleted s /\
  undoOpen (fst (loadTasks now uuid world true s)) = undoOpen s.
Proof.
  unfold loadTasks. destruct (loadData now uuid world) as [c [e | l]]; repeat split.
Qed.

(** X7.  A load that settles after teardown changes no state cell, whatever
    its outcome; the outside calls it made are the same as when mounted. *)
Theorem loadTasks_after_teardown `{Host} `{Seed} now uuid world s :
  fst (loadTasks now uuid world false s) = s /\
  snd (loadTasks now uuid world false s) = snd (loadTasks now uuid world true s).
Proof.
  unfold loadTasks. destruct (loadData now uuid world) as [c [e | l]]; split; reflexivity.
Qed.

(** X9.  A load that yields at least one task replaces the collection by the
    normalized tasks, whatever the collection held (tasks added while the
    load was in flight are dropped), without calling the generator. *)
Theorem loadTasks_keeps_data `{Host} `{Seed} now uuid res data c normalized s :
  ok res = true -> json res = inr data ->
  normalizeTasks now uuid data = (c, inr normalized) -> normalized <> [] ->
  loadTasks now uuid (inr res) true s =
  (mkState normalized false (error s) (lastDeleted s) (undoOpen s),
   [CallFetch "/tasks.json"]).
Proof.
  intros Hok Hj En Hne.
  pose proof (normalizeTasks_no_calls now uuid data) as Hc.
  rewrite En in Hc. simpl in Hc. subst c.
  unfold loadTasks, loadData, fetch, resJson, call, bind, ret.
  rewrite Hok, Hj. simpl. rewrite En.
  destruct normalized as [| t l]; [contradiction Hne; reflexivity |]. reflexivity.
Qed.

Lemma loadTasks_keeps_data_witness :
  tasks (fst (@loadTasks exampleHost exampleSeed 1000000000 (fun _ => "u")
                (inr (mkResponse true 200
                        (inr (ArrayOf [ElemRecord (exampleRaw (JS.Num 5) (JS.Num 1))]))))
                true
                (mkState [exampleTask "added" 1 1 Todo 0 None] true None None false)))
  = returned (@normalizeTasks exampleHost 1000000000 (fun _ => "u")
                (ArrayOf [ElemRecord (exampleRaw (JS.Num 5) (JS.Num 1))])).
Proof.
  rewrite (@loadTasks_keeps_data exampleHost exampleSeed 1000000000%Z (fun _ => "u")
             (mkResponse true 200
                (inr (ArrayOf [ElemRecord (exampleRaw (JS.Num 5) (JS.Num 1))])))
             (ArrayOf [ElemRecord (exampleRaw (JS.Num 5) (JS.Num 1))]) []
             (returned (@normalizeTasks exampleHost 1000000000 (fun _ => "u")
                (ArrayOf [ElemRecord (exampleRaw (JS.Num 5) (JS.Num 1))])))
             (mkState [exampleTask "added" 1 1 Todo 0 None] true None None false)
             eq_refl eq_refl eq_refl).
  - reflexivity.
  - discriminate.
Defined.

(** X10.  The recorded message: for a response that is not [ok] it names the
    HTTP status and the body is never read; for a rejected [fetch] or an
    unparseable body it is the thrown value's message, or "Failed to load
    tasks" when that value has none.  The collection is left as it was. *)
Theorem loadTasks_error_messages `{Host} `{Seed} now uuid s :
  (forall res,
      ok res = false ->
      fst (loadTasks now uuid (inr res) true s) =
      mkState (tasks s) false
        (Some ("Failed to load tasks.json (" ++ showNat (http_status res) ++ ")")%string)
        (lastDeleted s) (undoOpen s)) /\
  (forall e,
      fst (loadTasks now uuid (inl e) true s) =
      mkState (tasks s) false
        (Some (match JS.message e with Some m => m | None => "Failed to load tasks" end))
        (lastDeleted s) (undoOpen s)) /\
  (forall res e,
      ok res = true -> json res = inl e ->
      fst (loadTasks now uuid (inr res) true s) =
      mkState (tasks s) false
        (Some (match JS.message e with Some m => m | None => "Failed to load tasks" end))
        (lastDeleted s) (undoOpen s)).
Proof.
  split; [| split].
  - intros res Hok. unfold loadTasks, loadData, fetch, resJson, call, bind.
    rewrite Hok. reflexivity.
  - intros e. reflexivity.
  - intros res e Hok Hj. unfold loadTasks, loadData, fetch, resJson, call, bind, ret.
    rewrite Hok, Hj. reflexivity.
Qed.

(** X11.  Every load requests [/tasks.json] exactly once, first, and calls
    the generator at most once, with 50, after the request: these are the
    only two call sequences. *)
Theorem loadTasks_calls `{Host} `{Seed} now uuid world isMounted s :
  snd (loadTasks now uuid world isMounted s) = [CallFetch "/tasks.json"] \/
  snd (loadTasks now uuid world isMounted s) =
    [CallFetch "/tasks.json"; CallGenerateSalesTasks 50].
Proof.
  unfold loadTasks.
  destruct (loadData_cases now uuid world) as [(_ & e & E) | (_ & c & l & E)];
    rewrite E; simpl.
  - left. reflexivity.
  - destruct (loadData_success _ _ _ E)
      as (res & data & normalized & _ & _ & _ & _ & [(_ & _ & Ec) | (_ & _ & Ec)]);
      [left | right]; exact Ec.
Qed.

Section LoadSuccess.

Context `{Host} `{Seed}.

Hypothesis generate_length :
  forall n, List.length (generateSalesTasks n) = n.

(** X8.  With a generator that gives as many tasks as asked, a load that
    does not fail never leaves a mounted hook with an empty collection, and
    it leaves the error cell as it was (a success does not clear an earlier
    error). *)
Theorem loadTasks_success_nonempty now uuid world s :
  ~ load_fails now uuid world ->
  tasks (fst (loadTasks now uuid world true s)) <> [] /\
  error (fst (loadTasks now uuid world true s)) = error s.
Proof.
  intros Hok. unfold loadTasks.
  destruct (loadData_cases now uuid world) as [(Hf & _) | (_ & c & l & E)];
    [contradiction |].
  rewrite E. simpl. split; [| reflexivity].
  destruct (loadData_success _ _ _ E)
    as (res & data & normalized & _ & _ & _ & _ & [(Hne & El & _) | (_ & El & _)]);
    subst l; [exact Hne |].
  intros E0. pose proof (generate_length 50) as Hl. rewrite E0 in Hl. discriminate Hl.
Qed.

End LoadSuccess.

Lemma loadTasks_success_nonempty_witness :
  tasks (fst (@loadTasks exampleHost exampleSeed 0 (fun _ => "u")
                (inr (mkResponse true 200 (inr NotAnArray))) true initialState)) <> [].
Proof.
  refine (proj1 (@loadTasks_success_nonempty exampleHost exampleSeed _ 0%Z (fun _ => "u")
                   (inr (mkResponse true 200 (inr NotAnArray))) initialState _)).
  - intros n. apply repeat_length.
  - simpl. intros [Hk | (c & e & E)]; discriminate.
Defined.

(* ================================================================= *)
(** ** Mutations and [metrics] together *)

Lemma metrics_totalTimeTaken `{Logic} ts :
  totalTimeTaken (metrics ts) = sumOver timeTaken ts.
Proof. destruct ts; reflexivity. Qed.

Lemma sumOver_snoc f ts t :
  sumOver f (ts ++ [t]) = (sumOver f ts + f t)%float.
Proof. unfold sumOver. rewrite fold_left_app. reflexivity. Qed.

(** X12.  Whatever the helpers of [@/utils/logic], [totalTimeTaken] after
    [addTask] is the previous total plus the added task's clamped
    [timeTaken], and after a restoring [undoDelete] it is the previous total
    plus the held task's [timeTaken] (also from the empty collection, whose
    sentinel total is 0). *)
Theorem metrics_totalTime_grows `{Logic} now uuid task s :
  totalTimeTaken (metrics (tasks (addTask now uuid task s))) =
    (totalTimeTaken (metrics (tasks s)) +
     (if in_timeTaken task <=? 0 then 1 else in_timeTaken task))%float /\
  (forall held,
      lastDeleted s = Some held -> undoOpen s = true ->
      totalTimeTaken (metrics (tasks (undoDelete s))) =
        (totalTimeTaken (metrics (tasks s)) + timeTaken held)%float).
Proof.
  split.
  - rewrite !metrics_totalTimeTaken, addTask_tasks, sumOver_snoc. reflexivity.
  - intros held Hl Hu. rewrite (undoDelete_restores _ Hl Hu).
    rewrite !metrics_totalTimeTaken. cbn [tasks]. apply sumOver_snoc.
Qed.

(* ================================================================= *)
(** ** More on [addTask] *)

Lemma ids_differ tid (l : list Task) :
  ~ In tid (map id l) -> forall u, In u l -> id u <> tid.
Proof. intros Hn u Hu E. apply Hn. rewrite <- E. apply in_map. exact Hu. Qed.

(** X13.  [addTask] does not check the id it is given: on a collection with
    pairwise distinct ids, the ids stay distinct exactly when the new task's
    id (the supplied one, or the generated one) is not already in use. *)
Theorem addTask_ids_distinct now uuid task s :
  NoDup (map id (tasks s)) ->
  (NoDup (map id (tasks (addTask now uuid task s))) <->
   ~ In (match in_id task with Some i => i | None => uuid end) (map id (tasks s))).
Proof.
  intros Hnd. rewrite addTask_tasks, map_app. simpl. rewrite NoDup_snoc.
  split; [intros [_ Hn]; exact Hn | intros Hn; split; assumption].
Qed.

Lemma addTask_ids_distinct_witness :
  ~ NoDup (map id (tasks (addTask 1 "u" (exampleInput (Some "a") 10 1 Todo)
                            (mkState [exampleTask "a" 100 2 Todo 0 None]
                                     false None None false)))).
Proof.
  intros Hnd.
  apply (proj1 (@addTask_ids_distinct 1%Z "u" (exampleInput (Some "a") 10 1 Todo)
                  (mkState [exampleTask "a" 100 2 Todo 0 None] false None None false)
                  ltac:(simpl; constructor; [intros [] | constructor])) Hnd).
  left. reflexivity.
Defined.

(** X14.  Adding a task under an id not in use and deleting that id at once
    gives back the collection as it was, with the added task held; undoing
    then gives the collection [addTask] had produced. *)
Theorem addTask_then_delete now uuid task s :
  ~ In (match in_id task with Some i => i | None => uuid end) (map id (tasks s)) ->
  exists t,
    tasks (addTask now uuid task s) = tasks s ++ [t] /\
    id t = match in_id task with Some i => i | None => uuid end /\
    tasks (deleteTask (id t) (addTask now uuid task s)) = tasks s /\
    lastDeleted (deleteTask (id t) (addTask now uuid task s)) = Some t /\
    tasks (undoDelete (deleteTask (id t) (addTask now uuid task s))) =
      tasks (addTask now uuid task s).
Proof.
  intros Hfresh. pose proof (@ids_differ _ _ Hfresh) as Hothers.
  eexists. split; [apply addTask_tasks |]. cbn [id]. split; [reflexivity |].
  set (i := match in_id task with Some i => i | None => uuid end) in *.
  set (t := mkTask i _ _ _ _ _ _ _ _).
  assert (Et : tasks (addTask now uuid task s) = tasks s ++ [t]) by apply addTask_tasks.
  assert (Hdel : tasks (deleteTask i (addTask now uuid task s)) = tasks s).
  { destruct (deleteTask_cells i (addTask now uuid task s)) as (E & _).
    rewrite E, Et, filter_app, filter_others by exact Hothers.
    simpl. rewrite String.eqb_refl. simpl. apply app_nil_r. }
  assert (Hheld : lastDeleted (deleteTask i (addTask now uuid task s)) = Some t).
  { destruct (deleteTask_cells i (addTask now uuid task s)) as (_ & E & _).
    rewrite E, Et. apply find_first; [exact Hothers | reflexivity]. }
  split; [exact Hdel |]. split; [exact Hheld |].
  rewrite (undoDelete_restores _ Hheld eq_refl). cbn [tasks]. rewrite Hdel, Et. reflexivity.
Qed.

Lemma addTask_then_delete_witness :
  exists t,
    tasks (deleteTask (id t) (addTask 1 "u" (exampleInput None 10 1 Todo)
             (mkState [exampleTask "a" 100 2 Todo 0 None] false None None false)))
    = [exampleTask "a" 100 2 Todo 0 None] /\
    id t = "u".
Proof.
  destruct (@addTask_then_delete 1%Z "u" (exampleInput None 10 1 Todo)
              (mkState [exampleTask "a" 100 2 Todo 0 None] false None None false))
    as (t & _ & Hid & Hdel & _).
  - simpl. intros [E | []]. discriminate E.
  - exists t. split; [exact Hdel | exact Hid].
Defined.

(* ================================================================= *)
(** ** More on [updateTask] *)

Lemma one_not_leb_zero : (1 <=? 0)%float = false.
Proof. reflexivity. Qed.

Lemma updateOne_clamped now tid patch t :
  clamped t -> clamped (updateOne now tid patch t).
Proof.
  intros Ht. unfold updateOne.
  destruct (negb (id t =? tid)%string); [exact Ht |].
  set (u1 := merge t patch).
  set (u2 := if negb (Status_eqb (status t) Done) && Status_eqb (status u1) Done
             then set_completedAt (Some now) u1 else u1).
  unfold clamped. destruct (timeTaken u2 <=? 0)%float eqn:El; [reflexivity | exact El].
Qed.

(** X16.  The completion stamp is written only on the step into Done: for a
    task with the updated id, [completedAt] becomes the current time when
    the task was not Done and the merged status is Done, and is the merged
    value in every other case; in particular marking a Done task Done again
    does not refresh its [completedAt]. *)
Theorem updateTask_stamp_rule now tid patch s i t :
  nth_error (tasks s) i = Some t -> id t = tid ->
  exists t',
    nth_error (tasks (updateTask now tid patch s)) i = Some t' /\
    completedAt t' =
      (if negb (Status_eqb (status t) Done) && Status_eqb (status (merge t patch)) Done
       then Some now else completedAt (merge t patch)) /\
    (status t = Done -> p_completedAt patch = None -> completedAt t' = completedAt t).
Proof.
  intros Hi <-. exists (updateOne now (id t) patch t).
  split; [rewrite updateTask_nth, Hi; reflexivity |].
  assert (Hrule : completedAt (updateOne now (id t) patch t) =
                  (if negb (Status_eqb (status t) Done) &&
                      Status_eqb (status (merge t patch)) Done
                   then Some now else completedAt (merge t patch))).
  { destruct (negb (Status_eqb (status t) Done) &&
              Status_eqb (status (merge t patch)) Done) eqn:Eb.
    - apply andb_true_iff in Eb. destruct Eb as [Ea Eb].
      apply negb_true_iff in Ea. apply Status_eqb_neq in Ea. apply Status_eqb_eq in Eb.
      apply (updateOne_stamped now patch t Ea Eb).
    - apply updateOne_unstamped. apply andb_false_iff in Eb. destruct Eb as [Ea | Eb].
      + left. apply negb_false_iff in Ea. apply Status_eqb_eq in Ea. exact Ea.
      + right. apply Status_eqb_neq in Eb. exact Eb. }
  split; [exact Hrule |].
  intros Hd Hp. rewrite Hrule. apply Status_eqb_eq in Hd. rewrite Hd. simpl.
  rewrite Hp. reflexivity.
Qed.

Lemma updateTask_stamp_rule_witness :
  exists t',
    nth_error (tasks (updateTask 99 "a"
                        (mkPatch None None None None None (Some Done) None None None)
                        (mkState [exampleTask "a" 100 2 Done 3 (Some 7%Z)]
                                 false None None false))) 0 = Some t' /\
    completedAt t' = Some 7%Z.
Proof.
  destruct (@updateTask_stamp_rule 99%Z "a"
              (mkPatch None None None None None (Some Done) None None None)
              (mkState [exampleTask "a" 100 2 Done 3 (Some 7%Z)] false None None false)
              0%nat (exampleTask "a" 100 2 Done 3 (Some 7%Z)) eq_refl eq_refl)
    as (t' & Hn & _ & Hkeep).
  exists t'. split; [exact Hn |]. apply Hkeep; reflexivity.
Defined.

Lemma updateOne_twice now now' tid patch t :
  p_id patch = None -> p_completedAt patch = None ->
  updateOne now' tid patch (updateOne now tid patch t) = updateOne now tid patch t.
Proof.
  intros Hi Hc.
  destruct (id t =? tid)%string eqn:E.
  - destruct t as [i ti r tt p st n ca co].
    destruct patch as [pi pti pr ptt pp pst pn pca pco].
    simpl in *. subst pi pco. unfold updateOne, merge. simpl. rewrite E. simpl.
    destruct pst as [[] |], st; simpl;
      destruct ptt as [x |]; simpl;
      repeat match goal with
             | |- context [(?y <=? 0)%float] =>
                 lazymatch y with
                 | 1%float => rewrite one_not_leb_zero
                 | _ => let Hy := fresh "Hy" in destruct (y <=? 0)%float eqn:Hy
                 end; simpl; try rewrite E; simpl
             end; try rewrite one_not_leb_zero; try reflexivity.
    all: try congruence.
    all: unfold set_timeTaken, set_completedAt; simpl; f_equal;
      repeat match goal with
             | |- context [match ?o with Some _ => _ | None => _ end] => destruct o
             end; reflexivity.
  - unfold updateOne. rewrite E. simpl. rewrite E. reflexivity.
Qed.

(** X17.  Repeating an update changes nothing more: for a patch that carries
    neither [id] nor [completedAt], applying it a second time (at any later
    time) leaves the state the first application produced. *)
Theorem updateTask_idempotent now now' tid patch s :
  p_id patch = None -> p_completedAt patch = None ->
  updateTask now' tid patch (updateTask now tid patch s) = updateTask now tid patch s.
Proof.
  intros Hi Hc. unfold updateTask, setTasks. simpl. f_equal.
  rewrite map_map. apply map_ext. intros t. apply updateOne_twice; assumption.
Qed.

Lemma updateTask_idempotent_witness :
  updateTask 20 "a" (mkPatch None None None (Some 0%float) None (Some Done) None None None)
    (updateTask 10 "a" (mkPatch None None None (Some 0%float) None (Some Done) None None None)
       (mkState [exampleTask "a" 100 2 Todo 3 None] false None None false))
  = updateTask 10 "a" (mkPatch None None None (Some 0%float) None (Some Done) None None None)
      (mkState [exampleTask "a" 100 2 Todo 3 None] false None None false).
Proof.
  apply (@updateTask_idempotent 10%Z 20%Z "a"
           (mkPatch None None None (Some 0%float) None (Some Done) None None None)
           (mkState [exampleTask "a" 100 2 Todo 3 None] false None None false));
    reflexivity.
Defined.

(** X18.  Updates of different ids commute: when neither patch carries an
    [id], the two orders of applying them give the same state. *)
Theorem updateTask_commute n1 n2 a b p1 p2 s :
  a <> b -> p_id p1 = None -> p_id p2 = None ->
  updateTask n1 a p1 (updateTask n2 b p2 s) =
  updateTask n2 b p2 (updateTask n1 a p1 s).
Proof.
  intros Hab H1 H2. unfold updateTask, setTasks. simpl. f_equal.
  rewrite !map_map. apply map_ext. intros t.
  destruct (String.eqb_spec (id t) a) as [Ea | Ea].
  - assert (Hb : id t <> b) by congruence.
    rewrite (@updateOne_other n2 b p2 t Hb).
    symmetry. apply updateOne_other.
    rewrite updateOne_id by exact H1. exact Hb.
  - rewrite (@updateOne_other n1 a p1 t Ea).
    rewrite updateOne_other; [reflexivity |].
    rewrite updateOne_id by exact H2. exact Ea.
Qed.

Lemma updateTask_commute_witness :
  let s := mkState [exampleTask "a" 100 2 Todo 0 None;
                    exampleTask "b" 300 3 Todo 0 None] false None None false in
  let p1 := mkPatch None (Some "first") None None None None None None None in
  let p2 := mkPatch None None None None None (Some Done) None None None in
  updateTask 1 "a" p1 (updateTask 2 "b" p2 s) =
  updateTask 2 "b" p2 (updateTask 1 "a" p1 s).
Proof.
  cbv zeta.
  apply (@updateTask_commute 1%Z 2%Z "a" "b"
           (mkPatch None (Some "first") None None None None None None None)
           (mkPatch None None None None None (Some Done) None None None)
           (mkState [exampleTask "a" 100 2 Todo 0 None;
                     exampleTask "b" 300 3 Todo 0 None] false None None false));
    [discriminate | reflexivity | reflexivity].
Defined.

(* ================================================================= *)
(** ** More on the delete/undo cell, and sequences of calls *)

Lemma find_absent tid (l : list Task) :
  (forall u, In u l -> id u <> tid) <->
  find (fun u => (id u =? tid)%string) l = None.
Proof.
  split.
  - intros Hl. induction l as [| u l IH]; simpl; [reflexivity |].
    destruct (id u =? tid)%string eqn:E.
    + apply String.eqb_eq in E. exfalso. apply (Hl u); [left; reflexivity | exact E].
    + apply IH. intros v Hv. apply Hl. right. exact Hv.
  - intros Hf u Hu. apply String.eqb_neq.
    exact (@find_none _ _ _ Hf u Hu).
Qed.

Lemma store_all_delete (P : Task -> Prop) tid s :
  store_all P s -> store_all P (deleteTask tid s).
Proof.
  intros [Ht _]. unfold store_all, deleteTask. simpl.
  rewrite Forall_forall in Ht. split.
  - apply Forall_forall. intros u Hu. apply filter_In in Hu. apply Ht. apply Hu.
  - destruct (find _ (tasks s)) as [held |] eqn:Ef; [| exact I].
    apply find_some in Ef. apply Ht. apply Ef.
Qed.

Lemma store_all_undo (P : Task -> Prop) s :
  store_all P s -> store_all P (undoDelete s).
Proof.
  intros [Ht Hh]. unfold undoDelete.
  destruct (lastDeleted s) as [held |] eqn:El.
  - destruct (undoOpen s); simpl.
    + split; simpl; [| exact I]. apply Forall_app. split; [exact Ht |].
      constructor; [exact Hh | constructor].
    + split; [exact Ht |]. rewrite El. exact Hh.
  - split; [exact Ht |]. rewrite El. exact I.
Qed.

Lemma store_all_clear (P : Task -> Prop) s :
  store_all P s -> store_all P (clearUndo s).
Proof. intros [Ht _]. split; [exact Ht | exact I]. Qed.

Lemma performAll_cons a l s :
  performAll (a :: l) s = performAll l (perform a s).
Proof. reflexivity. Qed.

(** X15.  No call sequence produces a [timeTaken <= 0]: if no task of the
    collection and not the held task has one, the same holds after any
    sequence of [addTask], [updateTask], [deleteTask], [undoDelete] and
    [clearUndo] calls, whatever their arguments. *)
Theorem timeTaken_never_nonpositive l s :
  store_all clamped s -> store_all clamped (performAll l s).
Proof.
  revert s. induction l as [| a l IH]; intros s Hs; [exact Hs |].
  rewrite performAll_cons. apply IH. destruct a as [now uuid task | now tid patch | tid | |].
  - destruct Hs as [Ht Hh]. split; [| exact Hh].
    unfold perform. rewrite addTask_tasks. apply Forall_app. split; [exact Ht |].
    constructor; [| constructor]. unfold clamped. simpl.
    destruct (in_timeTaken task <=? 0)%float eqn:El; [reflexivity | exact El].
  - destruct Hs as [Ht Hh]. split; [| exact Hh].
    unfold perform. rewrite updateTask_tasks. rewrite Forall_forall in *.
    intros u Hu. apply in_map_iff in Hu. destruct Hu as (t & <- & Hin).
    apply updateOne_clamped. apply Ht. exact Hin.
  - apply store_all_delete. exact Hs.
  - apply store_all_undo. exact Hs.
  - apply store_all_clear. exact Hs.
Qed.

Lemma timeTaken_never_nonpositive_witness :
  store_all clamped
    (performAll [AddTask 1 "u" (exampleInput None 10 (-3) Todo);
                 UpdateTask 2 "u" (mkPatch None None None (Some 0%float) None None None None None);
                 DeleteTask "u"; UndoDelete]
                initialState).
Proof.
  apply (@timeTaken_never_nonpositive
           [AddTask 1 "u" (exampleInput None 10 (-3) Todo);
            UpdateTask 2 "u" (mkPatch None None None (Some 0%float) None None None None None);
            DeleteTask "u"; UndoDelete]
           initialState).
  split; [constructor | exact I].
Defined.

(** X19.  [deleteTask] with an id no task has leaves the collection as it
    is, but still opens the undo window and empties the cell: a task held
    from an earlier delete is discarded, and [undoDelete] then restores
    nothing. *)
Theorem deleteTask_unknown_id tid s :
  (forall t, In t (tasks s) -> id t <> tid) ->
  deleteTask tid s = mkState (tasks s) (loading s) (error s) None true /\
  undoDelete (deleteTask tid s) = deleteTask tid s.
Proof.
  intros Hno.
  assert (E : deleteTask tid s = mkState (tasks s) (loading s) (error s) None true).
  { unfold deleteTask, setTasks, setUndoOpen, setLastDeleted. simpl.
    rewrite (@filter_others _ _ Hno). rewrite (proj1 (find_absent tid (tasks s)) Hno).
    reflexivity. }
  split; [exact E |]. rewrite E. reflexivity.
Qed.

Lemma deleteTask_unknown_id_witness :
  lastDeleted (deleteTask "zzz"
                 (mkState [exampleTask "a" 100 2 Todo 0 None] false None
                          (Some (exampleTask "b" 300 3 Todo 0 None)) true)) = None.
Proof.
  rewrite (proj1 (@deleteTask_unknown_id "zzz"
                    (mkState [exampleTask "a" 100 2 Todo 0 None] false None
                             (Some (exampleTask "b" 300 3 Todo 0 None)) true)
                    ltac:(intros t [<- | []]; discriminate))).
  reflexivity.
Defined.

(** X20.  Deleting the same id twice loses the task: the second call finds
    nothing, empties the cell, and [undoDelete] then restores nothing. *)
Theorem deleteTask_twice tid s :
  tasks (deleteTask tid (deleteTask tid s)) = tasks (deleteTask tid s) /\
  lastDeleted (deleteTask tid (deleteTask tid s)) = None /\
  undoDelete (deleteTask tid (deleteTask tid s)) = deleteTask tid (deleteTask tid s).
Proof.
  assert (Hno : forall t, In t (tasks (deleteTask tid s)) -> id t <> tid).
  { intros t Hin. destruct (deleteTask_cells tid s) as (E & _). rewrite E in Hin.
    apply (@filter_drops _ _ _ Hin). }
  assert (E : deleteTask tid (deleteTask tid s) =
              mkState (tasks (deleteTask tid s)) (loading (deleteTask tid s))
                      (error (deleteTask tid s)) None true).
  { unfold deleteTask at 1. unfold setTasks, setUndoOpen, setLastDeleted.
    cbn [tasks loading error lastDeleted undoOpen].
    rewrite (@filter_others _ _ Hno).
    rewrite (proj1 (find_absent tid (tasks (deleteTask tid s))) Hno). reflexivity. }
  rewrite E. repeat split.
Qed.

(** X21.  What [deleteTask] removes and captures: the collection keeps
    exactly the tasks with another id; the held task, if any, was in the
    collection, has the deleted id and is no longer in the collection; and
    nothing is held exactly when no task had the id. *)
Theorem deleteTask_removes tid s :
  (forall u, In u (tasks (deleteTask tid s)) <-> In u (tasks s) /\ id u <> tid) /\
  (forall held, lastDeleted (deleteTask tid s) = Some held ->
                In held (tasks s) /\ id held = tid /\
                ~ In held (tasks (deleteTask tid s))) /\
  (lastDeleted (deleteTask tid s) = None <->
   forall u, In u (tasks s) -> id u <> tid) /\
  (List.length (tasks (deleteTask tid s)) <= List.length (tasks s))%nat.
Proof.
  destruct (deleteTask_cells tid s) as (Et & El & _). rewrite Et, El.
  split; [| split; [| split]].
  - intros u. rewrite filter_In, negb_true_iff, String.eqb_neq. reflexivity.
  - intros held Hf. apply find_some in Hf. destruct Hf as [Hin Hid].
    apply String.eqb_eq in Hid. split; [exact Hin |]. split; [exact Hid |].
    intros Hin'. apply filter_drops in Hin'. contradiction.
  - split; intros Hx; apply find_absent; exact Hx.
  - apply filter_length_le.
Qed.

(** X22.  [undoDelete] restores at most once: a second call right after the
    first changes nothing. *)
Theorem undoDelete_idempotent s :
  undoDelete (undoDelete s) = undoDelete s.
Proof.
  destruct (lastDeleted s) as [held |] eqn:El.
  - destruct (undoOpen s) eqn:Eu.
    + rewrite (@undoDelete_restores s held El Eu).
      apply undoDelete_noop. left. reflexivity.
    + rewrite (@undoDelete_noop s) by (right; exact Eu).
      apply undoDelete_noop. right. exact Eu.
  - rewrite (@undoDelete_noop s) by (left; exact El).
    apply undoDelete_noop. left. exact El.
Qed.

(** X23.  From the first render on, a held task implies an open undo
    window: after any sequence of calls, if the cell holds a task then
    [undoOpen] is true, so [undoDelete] restores whenever something is
    held. *)
Theorem held_implies_window_open l :
  forall held,
    lastDeleted (performAll l initialState) = Some held ->
    undoOpen (performAll l initialState) = true /\
    tasks (undoDelete (performAll l initialState)) =
      tasks (performAll l initialState) ++ [held].
Proof.
  assert (Hinv : forall l s,
             (lastDeleted s = None \/ undoOpen s = true) ->
             lastDeleted (performAll l s) = None \/ undoOpen (performAll l s) = true).
  { clear l. induction l as [| a l IH]; intros s Hs; [exact Hs |].
    rewrite performAll_cons. apply IH.
    destruct a as [now uuid task | now tid patch | tid | |]; simpl.
    - exact Hs.
    - exact Hs.
    - right. reflexivity.
    - unfold undoDelete. destruct (lastDeleted s) eqn:El.
      + destruct (undoOpen s) eqn:Eu; simpl; [left; reflexivity |].
        destruct Hs as [Hs | Hs]; [left; rewrite <- Hs; exact El | discriminate Hs].
      + left. exact El.
    - left. reflexivity. }
  intros held Hl.
  destruct (Hinv l initialState (or_introl eq_refl)) as [Hn | Ho];
    [rewrite Hn in Hl; discriminate Hl |].
  split; [exact Ho |]. rewrite (undoDelete_restores _ Hl Ho). reflexivity.
Qed.

Lemma held_implies_window_open_witness :
  undoOpen (performAll [AddTask 1 "u" (exampleInput None 10 1 Todo); DeleteTask "u"]
                       initialState) = true.
Proof.
  refine (proj1 (@held_implies_window_open
                   [AddTask 1 "u" (exampleInput None 10 1 Todo); DeleteTask "u"]
                   _ _)).
  reflexivity.
Defined.

(** X24.  Deleting, undoing and clearing never make or alter a task: any
    property that holds of every task of the collection and of the held
    task still does after any sequence of [deleteTask], [undoDelete] and
    [clearUndo] calls. *)
Theorem undo_actions_conserve (P : Task -> Prop) l s :
  Forall undo_only l -> store_all P s -> store_all P (performAll l s).
Proof.
  revert s. induction l as [| a l IH]; intros s Hl Hs; [exact Hs |].
  inversion Hl as [| ? ? Ha Hrest]; subst.
  rewrite performAll_cons. apply IH; [exact Hrest |].
  destruct a as [now uuid task | now tid patch | tid | |]; simpl in Ha; try contradiction.
  - apply store_all_delete. exact Hs.
  - apply store_all_undo. exact Hs.
  - apply store_all_clear. exact Hs.
Qed.

Lemma undo_actions_conserve_witness :
  store_all (fun t => status t = Todo)
    (performAll [DeleteTask "a"; UndoDelete; DeleteTask "b"; ClearUndo]
       (mkState [exampleTask "a" 100 2 Todo 0 None;
                 exampleTask "b" 300 3 Todo 0 None] false None None false)).
Proof.
  apply (@undo_actions_conserve (fun t => status t = Todo)
           [DeleteTask "a"; UndoDelete; DeleteTask "b"; ClearUndo]
           (mkState [exampleTask "a" 100 2 Todo 0 None;
                     exampleTask "b" 300 3 Todo 0 None] false None None false)).
  - repeat constructor.
  - split; [repeat constructor | exact I].
Defined.
